(** * The marker publisher node

    A shallow embedding of [ros2_ws/src/cpp_pubsub/src/marker_publisher.cpp]:
    the node that draws the reference trajectory, the reference ball, the
    tool-centre-point marker and the countdown text in Rviz.

    Conventions of the embedding.
    - A C++ [double] is a primitive binary64 [float]: the arithmetic, the
      comparisons [==] and [!=], NaN and the signed zeros are those of the
      machine.  The library function [sin] of <cmath> is not a primitive; it
      is a variable of the section that holds the node.
    - A C++ [int] is a [Z].  Signed overflow and the conversion of a double
      outside the range of [int] are undefined in C++ and lie outside the
      model: a theorem whose conclusion rests on such a value states the
      range ([fits_int], [elapsed_time_in_range], [max_points < INT_MAX]) as
      a hypothesis.
    - [std::vector::at] throws [std::out_of_range]; functions that call it
      return a [result].
    - [rclcpp::Clock().now()] is an input of each function that reads it. *)

From Stdlib Require Import ZArith List String Bool Lia.
From Stdlib Require Import Floats DecimalString.
Import ListNotations.

#[local] Set Warnings "-inexact-float".
#[local] Open Scope Z_scope.

(** ** Outcomes of a call *)

Inductive exn : Type :=
| out_of_range.

Inductive result (A : Type) : Type :=
| Ok (a : A)
| Throw (e : exn)
| OutOfFuel.

Arguments Ok {A} a.
Arguments Throw {A} e.
Arguments OutOfFuel {A}.

Definition bind {A B : Type} (r : result A) (k : A -> result B) : result B :=
  match r with
  | Ok a => k a
  | Throw e => Throw e
  | OutOfFuel => OutOfFuel
  end.

Notation "x <- r ;; k" := (bind r (fun x => k))
  (at level 61, r at next level, right associativity).

Notation "m |> f" := (f m) (at level 45, left associativity, only parsing).

(** ** The C++ operations the node uses *)

(** [v.at(i)] of a [std::vector]. *)
Definition vec_at {A : Type} (v : list A) (i : nat) : result A :=
  match nth_error v i with
  | Some a => Ok a
  | None => Throw out_of_range
  end.

(** [v.at(i) = a]. *)
Fixpoint vec_set {A : Type} (v : list A) (i : nat) (a : A) : result (list A) :=
  match v, i with
  | [], _ => Throw out_of_range
  | _ :: v', O => Ok (a :: v')
  | b :: v', S i' => v'' <- vec_set v' i' a ;; Ok (b :: v'')
  end.

(** [v.push_back(a)]. *)
Definition push_back {A : Type} (v : list A) (a : A) : list A := v ++ [a].

(** The conversion of an [int] to [double]. *)
Definition double_of_int (i : Z) : float :=
  if i <? 0 then PrimFloat.opp (PrimFloat.of_uint63 (Uint63.of_Z (- i)))
  else PrimFloat.of_uint63 (Uint63.of_Z i).

(** The range of [int]. *)
Definition INT_MIN : Z := - 2 ^ 31.
Definition INT_MAX : Z := 2 ^ 31 - 1.

(** Whether an [int] holds the integer [i]. *)
Definition fits_int (i : Z) : bool := (INT_MIN <=? i) && (i <=? INT_MAX).

(** [std::stoi] applied to the decimal string of the integer [value]: the
    value when an [int] holds it, [std::out_of_range] otherwise. *)
Definition stoi_of_integer (value : Z) : result Z :=
  if fits_int value then Ok value else Throw out_of_range.

(** The cast [(int) d]: truncation towards zero.  The cast is defined in C++
    for a finite [d] whose truncation fits an [int] ([cast_defined] below);
    outside, the value the model gives (0 for NaN and the infinities, the
    unbounded truncation otherwise) stands for no value of the code. *)
Definition int_of_double (d : float) : Z :=
  match Prim2SF d with
  | S754_finite s m e =>
      let mag := if 0 <=? e then Z.shiftl (Zpos m) e else Z.shiftr (Zpos m) (- e) in
      if s then - mag else mag
  | _ => 0
  end.

(** Whether the cast [(int) d] is defined. *)
Definition cast_defined (d : float) : bool :=
  is_finite d && fits_int (int_of_double d).

(** [std::to_string(int)]. *)
Definition to_string (i : Z) : string := NilZero.string_of_int (Z.to_int i).

(** An [int] used as a condition. *)
Definition truthy (i : Z) : bool := negb (i =? 0).

(** [M_PI] of <cmath>. *)
Definition M_PI : float := 3.14159265358979323846%float.

(** A reading of the clock. *)
Definition Time : Type := Z.

(** ** Messages

    The message types come from [geometry_msgs], [std_msgs],
    [visualization_msgs] and [tutorial_interfaces]; the records below hold the
    fields the node reads or writes, with the zero defaults of a
    default-constructed message. *)

Module Point.
Record t : Type := mk { x : float; y : float; z : float }.
Definition zero : t := mk 0 0 0.
End Point.

Module Vector3.
Record t : Type := mk { x : float; y : float; z : float }.
Definition zero : t := mk 0 0 0.
End Vector3.

(** The channels of [std_msgs/ColorRGBA] are [float]; a double assigned to one
    is rounded to binary32.  The node assigns 1.0 (exact), 0.35 and 0.2,
    written below as the binary32 values they round to. *)
Module ColorRGBA.
Record t : Type := mk { r : float; g : float; b : float; a : float }.
Definition zero : t := mk 0 0 0 0.
Definition alpha_0_35 : float := 0x1.666666p-2%float.
Definition alpha_0_2 : float := 0x1.99999ap-3%float.
End ColorRGBA.

Module Marker.
Record t : Type := mk {
    frame_id : string;          (* header.frame_id *)
    stamp : Time;               (* header.stamp *)
    ns : string;
    id : Z;
    type : Z;
    action : Z;
    position : Point.t;         (* pose.position *)
    scale : Vector3.t;
    color : ColorRGBA.t;
    points : list Point.t;
    text : string
  }.

(** [visualization_msgs::msg::Marker()]. *)
Definition default : t :=
    mk EmptyString 0 EmptyString 0 0 0 Point.zero Vector3.zero ColorRGBA.zero [] EmptyString.

(** Constants of [visualization_msgs/msg/Marker]. *)
Definition ADD : Z := 0.
Definition SPHERE : Z := 2.
Definition LINE_STRIP : Z := 4.
Definition TEXT_VIEW_FACING : Z := 9.

Definition set_frame_id (v : string) (m : t) : t :=
    mk v (stamp m) (ns m) (id m) (type m) (action m) (position m) (scale m) (color m) (points m) (text m).
Definition set_stamp (v : Time) (m : t) : t :=
    mk (frame_id m) v (ns m) (id m) (type m) (action m) (position m) (scale m) (color m) (points m) (text m).
Definition set_ns (v : string) (m : t) : t :=
    mk (frame_id m) (stamp m) v (id m) (type m) (action m) (position m) (scale m) (color m) (points m) (text m).
Definition set_id (v : Z) (m : t) : t :=
    mk (frame_id m) (stamp m) (ns m) v (type m) (action m) (position m) (scale m) (color m) (points m) (text m).
Definition set_type (v : Z) (m : t) : t :=
    mk (frame_id m) (stamp m) (ns m) (id m) v (action m) (position m) (scale m) (color m) (points m) (text m).
Definition set_action (v : Z) (m : t) : t :=
    mk (frame_id m) (stamp m) (ns m) (id m) (type m) v (position m) (scale m) (color m) (points m) (text m).
Definition set_position (v : Point.t) (m : t) : t :=
    mk (frame_id m) (stamp m) (ns m) (id m) (type m) (action m) v (scale m) (color m) (points m) (text m).
Definition set_scale (v : Vector3.t) (m : t) : t :=
    mk (frame_id m) (stamp m) (ns m) (id m) (type m) (action m) (position m) v (color m) (points m) (text m).
Definition set_color (v : ColorRGBA.t) (m : t) : t :=
    mk (frame_id m) (stamp m) (ns m) (id m) (type m) (action m) (position m) (scale m) v (points m) (text m).
Definition set_points (v : list Point.t) (m : t) : t :=
    mk (frame_id m) (stamp m) (ns m) (id m) (type m) (action m) (position m) (scale m) (color m) v (text m).
Definition set_text (v : string) (m : t) : t :=
    mk (frame_id m) (stamp m) (ns m) (id m) (type m) (action m) (position m) (scale m) (color m) (points m) v.

(** Assignments to one component of [pose.position], [scale] and [color]. *)
Definition set_position_x (v : float) (m : t) : t :=
    set_position (Point.mk v (Point.y (position m)) (Point.z (position m))) m.
Definition set_position_y (v : float) (m : t) : t :=
    set_position (Point.mk (Point.x (position m)) v (Point.z (position m))) m.
Definition set_position_z (v : float) (m : t) : t :=
    set_position (Point.mk (Point.x (position m)) (Point.y (position m)) v) m.
Definition set_scale_x (v : float) (m : t) : t :=
    set_scale (Vector3.mk v (Vector3.y (scale m)) (Vector3.z (scale m))) m.
Definition set_scale_y (v : float) (m : t) : t :=
    set_scale (Vector3.mk (Vector3.x (scale m)) v (Vector3.z (scale m))) m.
Definition set_scale_z (v : float) (m : t) : t :=
    set_scale (Vector3.mk (Vector3.x (scale m)) (Vector3.y (scale m)) v) m.
Definition set_color_r (v : float) (m : t) : t :=
    set_color (ColorRGBA.mk v (ColorRGBA.g (color m)) (ColorRGBA.b (color m)) (ColorRGBA.a (color m))) m.
Definition set_color_g (v : float) (m : t) : t :=
    set_color (ColorRGBA.mk (ColorRGBA.r (color m)) v (ColorRGBA.b (color m)) (ColorRGBA.a (color m))) m.
Definition set_color_b (v : float) (m : t) : t :=
    set_color (ColorRGBA.mk (ColorRGBA.r (color m)) (ColorRGBA.g (color m)) v (ColorRGBA.a (color m))) m.
Definition set_color_a (v : float) (m : t) : t :=
    set_color (ColorRGBA.mk (ColorRGBA.r (color m)) (ColorRGBA.g (color m)) (ColorRGBA.b (color m)) v) m.

(** [m.points.push_back(p)]. *)
Definition points_push_back (p : Point.t) (m : t) : t :=
    set_points (push_back (points m) p) m.
End Marker.

(** [visualization_msgs/msg/MarkerArray]: the field [markers]. *)
Definition MarkerArray : Type := list Marker.t.

(** [std_msgs/msg/Float64]. *)
Module Float64.
Record t : Type := mk { data : float }.
End Float64.

(** Modelled from the spec: [tutorial_interfaces/msg/PosInfo] is declared
    outside the source file.  The node reads [ref_position[0]],
    [ref_position[1]] and [ref_position[2]]; the position update carries three
    reals, held here as the three cells of the array. *)
Module PosInfo.
Record t : Type := mk { ref_position_0 : float; ref_position_1 : float; ref_position_2 : float }.
End PosInfo.

(** ** The functions that fill the markers *)

(** [generate_tcp_marker]. *)
Definition generate_tcp_marker (now : Time) (tcp_marker : Marker.t) : Marker.t :=
  tcp_marker
  |> Marker.set_frame_id "/panda_hand_tcp"
  |> Marker.set_stamp now
  |> Marker.set_ns "marker_publisher"
  |> Marker.set_action Marker.ADD
  |> Marker.set_id 1
  |> Marker.set_type Marker.SPHERE
  |> Marker.set_scale_x 0.015%float
  |> Marker.set_scale_y 0.015%float
  |> Marker.set_scale_z 0.015%float
  |> Marker.set_color_r 1%float
  |> Marker.set_color_a 1%float
  |> Marker.set_position_x 0%float
  |> Marker.set_position_y 0%float
  |> Marker.set_position_z 0%float.

(** [generate_ref_ball].  The marker is filled up to its colour before the
    test on [x]; the branch taken when [x == 0.0] reads
    [traj_marker.points.at(0)]. *)
Definition generate_ref_ball (now : Time) (ref_marker : Marker.t)
    (x y z d : float) (traj_marker : Marker.t) : result Marker.t :=
  let my_size := (0.015 + d / 20)%float in
  let ref_marker :=
    ref_marker
    |> Marker.set_frame_id "/panda_link0"
    |> Marker.set_stamp now
    |> Marker.set_ns "marker_publisher"
    |> Marker.set_action Marker.ADD
    |> Marker.set_id 0
    |> Marker.set_type Marker.SPHERE
    |> Marker.set_scale_x my_size
    |> Marker.set_scale_y my_size
    |> Marker.set_scale_z my_size
    |> Marker.set_color_g 1%float
    |> Marker.set_color_a ColorRGBA.alpha_0_35 in
  if (x =? 0)%float then
    p0 <- vec_at (Marker.points traj_marker) 0 ;;
    p1 <- vec_at (Marker.points traj_marker) 0 ;;
    p2 <- vec_at (Marker.points traj_marker) 0 ;;
    Ok (ref_marker
        |> Marker.set_position_x (Point.x p0)
        |> Marker.set_position_y (Point.y p1)
        |> Marker.set_position_z (Point.z p2))
  else
    Ok (ref_marker
        |> Marker.set_position_x x
        |> Marker.set_position_y y
        |> Marker.set_position_z z).

(** [generate_countdown].  The [switch] has no [default]: a count outside
    0..5 leaves the colour channels of the fresh marker at 0. *)
Definition generate_countdown (now : Time) (count : Z) (center : list float)
    : result Marker.t :=
  let text :=
    Marker.default
    |> Marker.set_frame_id "/panda_link0"
    |> Marker.set_stamp now
    |> Marker.set_ns "marker_publisher"
    |> Marker.set_action Marker.ADD
    |> Marker.set_id 10
    |> Marker.set_type Marker.TEXT_VIEW_FACING
    |> Marker.set_scale_z 0.2%float in
  let text :=
    match count with
    | 5 => text |> Marker.set_color_r 1%float
    | 4 => text |> Marker.set_color_r 1%float
    | 3 => text |> Marker.set_color_r 1%float
    | 2 => text |> Marker.set_color_r 1%float |> Marker.set_color_g 1%float
    | 1 => text |> Marker.set_color_r 1%float |> Marker.set_color_g 1%float
    | 0 => text |> Marker.set_color_g 1%float
    | _ => text
    end in
  let text := text |> Marker.set_color_a 1%float in
  let text := text |> Marker.set_text (to_string count) in
  let text := if count =? 0 then text |> Marker.set_text "Go!" else text in
  let text :=
    if count =? -10
    then text |> Marker.set_text "Stop!" |> Marker.set_color_r 1%float
    else text in
  c0 <- vec_at center 0 ;;
  let text := text |> Marker.set_position_x c0 in
  c1 <- vec_at center 1 ;;
  let text := text |> Marker.set_position_y c1 in
  c2 <- vec_at center 2 ;;
  let text := text |> Marker.set_position_z (c2 + 0.05)%float in
  Ok text.

Section Node.

(** [sin] of <cmath>. *)
Variable sin : float -> float.

Section TrajMarker.

Variables (origin : list float) (max_points : Z).
Variables (pa pb pc ps ph height width depth : float) (use_depth : Z).

    (** The body of the loop of [generate_traj_marker] up to the point [p].
    [abs] is applied to a double: it is the overload of <cmath>, the absolute
    value of the double. *)
Definition traj_point (count : Z) : result Point.t :=
      let t := (double_of_int count / double_of_int max_points * 2 * M_PI)%float in
      let x := 0%float in
      let x :=
        if truthy use_depth
        then (abs (t - M_PI) / M_PI * depth - (depth / 2))%float
        else x in
      let y := (t / (2 * M_PI) * width - (width / 2))%float in
      let z :=
        ((ph * height) * (sin (pa * (t + ps)) + sin (pb * (t + ps)) + sin (pc * (t + ps))))%float in
      o0 <- vec_at origin 0 ;;
      o1 <- vec_at origin 1 ;;
      o2 <- vec_at origin 2 ;;
      Ok (Point.mk (x + o0) (y + o1) (z + o2)).

(** [for (int count=0; count<=max_points; count++)], entered at [count].
    The counter is a [Z]: it is the counter of the code as long as
    [max_points < INT_MAX], where [count++] never overflows. *)
Fixpoint traj_loop (fuel : nat) (count : Z) (traj_marker : Marker.t)
        : result Marker.t :=
      match fuel with
      | O => OutOfFuel
      | S fuel' =>
          if count <=? max_points then
            p <- traj_point count ;;
            traj_loop fuel' (count + 1) (Marker.points_push_back p traj_marker)
          else Ok traj_marker
      end.

    (** [generate_traj_marker].  The loop runs [max_points + 1] times when
        [max_points] is not negative; one more step of fuel sees its test
        fail. *)
Definition generate_traj_marker (now : Time) (traj_marker : Marker.t)
        : result Marker.t :=
      let traj_marker :=
        traj_marker
        |> Marker.set_frame_id "/panda_link0"
        |> Marker.set_stamp now
        |> Marker.set_ns "marker_publisher"
        |> Marker.set_action Marker.ADD
        |> Marker.set_id 2
        |> Marker.set_type Marker.LINE_STRIP
        |> Marker.set_scale_x 0.015%float
        |> Marker.set_color_b 1%float
        |> Marker.set_color_a ColorRGBA.alpha_0_2 in
      traj_loop (S (Z.to_nat (max_points + 1))) 0 traj_marker.

End TrajMarker.

End Node.

(** ** The node *)

Module MarkerPublisher.
Record t : Type := mk {
  use_depth : Z;
  part_id : Z;
  alpha_id : Z;
  traj_id : Z;
  origin : list float;
  ref_pos : list float;
  bar_center : list float;
  controller_seconds : Z;
  countdown_count : Z;
  pa : Z;
  pb : Z;
  pc : Z;
  ps : float;
  ph : float;
  traj_height : float;
  traj_width : float;
  traj_depth : float;
  traj_marker_ : Marker.t;
  ref_marker_ : Marker.t;
  tcp_marker_ : Marker.t
}.

(** The constant members. *)
Definition max_points : Z := 200.
Definition pub_freq : Z := 50.
Definition control_freq : Z := 500.
Definition max_smoothing_time : Z := 5.
Definition max_smoothing_count : float := double_of_int (control_freq * max_smoothing_time).
Definition max_recording_time : Z := 10.

(** The member initialisers. *)
Definition members : t :=
  mk 0 0 0 0
     [0.5059; 0.0; 0.4346]%float
     [0.0; 0.0; 0.0]%float
     [0.3; 0.0; 0.05]%float
     0 5
     0 0 0 0%float 0%float
     0.1%float 0.3%float 0.1%float
     Marker.default Marker.default Marker.default.

Definition set_params (u p a i : Z) (n : t) : t :=
  mk u p a i (origin n) (ref_pos n) (bar_center n) (controller_seconds n) (countdown_count n)
     (pa n) (pb n) (pc n) (ps n) (ph n) (traj_height n) (traj_width n) (traj_depth n)
     (traj_marker_ n) (ref_marker_ n) (tcp_marker_ n).
Definition set_ref_pos (v : list float) (n : t) : t :=
  mk (use_depth n) (part_id n) (alpha_id n) (traj_id n) (origin n) v (bar_center n)
     (controller_seconds n) (countdown_count n)
     (pa n) (pb n) (pc n) (ps n) (ph n) (traj_height n) (traj_width n) (traj_depth n)
     (traj_marker_ n) (ref_marker_ n) (tcp_marker_ n).
Definition set_controller_seconds (v : Z) (n : t) : t :=
  mk (use_depth n) (part_id n) (alpha_id n) (traj_id n) (origin n) (ref_pos n) (bar_center n)
     v (countdown_count n)
     (pa n) (pb n) (pc n) (ps n) (ph n) (traj_height n) (traj_width n) (traj_depth n)
     (traj_marker_ n) (ref_marker_ n) (tcp_marker_ n).
Definition set_countdown_count (v : Z) (n : t) : t :=
  mk (use_depth n) (part_id n) (alpha_id n) (traj_id n) (origin n) (ref_pos n) (bar_center n)
     (controller_seconds n) v
     (pa n) (pb n) (pc n) (ps n) (ph n) (traj_height n) (traj_width n) (traj_depth n)
     (traj_marker_ n) (ref_marker_ n) (tcp_marker_ n).
(** [pa = a; pb = b; pc = c; ps = s; ph = h;]: one case of the switch. *)
Definition set_sine (a b c : Z) (s h : float) (n : t) : t :=
  mk (use_depth n) (part_id n) (alpha_id n) (traj_id n) (origin n) (ref_pos n) (bar_center n)
     (controller_seconds n) (countdown_count n)
     a b c s h (traj_height n) (traj_width n) (traj_depth n)
     (traj_marker_ n) (ref_marker_ n) (tcp_marker_ n).
Definition set_traj_marker_ (v : Marker.t) (n : t) : t :=
  mk (use_depth n) (part_id n) (alpha_id n) (traj_id n) (origin n) (ref_pos n) (bar_center n)
     (controller_seconds n) (countdown_count n)
     (pa n) (pb n) (pc n) (ps n) (ph n) (traj_height n) (traj_width n) (traj_depth n)
     v (ref_marker_ n) (tcp_marker_ n).
Definition set_ref_marker_ (v : Marker.t) (n : t) : t :=
  mk (use_depth n) (part_id n) (alpha_id n) (traj_id n) (origin n) (ref_pos n) (bar_center n)
     (controller_seconds n) (countdown_count n)
     (pa n) (pb n) (pc n) (ps n) (ph n) (traj_height n) (traj_width n) (traj_depth n)
     (traj_marker_ n) v (tcp_marker_ n).
Definition set_tcp_marker_ (v : Marker.t) (n : t) : t :=
  mk (use_depth n) (part_id n) (alpha_id n) (traj_id n) (origin n) (ref_pos n) (bar_center n)
     (controller_seconds n) (countdown_count n)
     (pa n) (pb n) (pc n) (ps n) (ph n) (traj_height n) (traj_width n) (traj_depth n)
     (traj_marker_ n) (ref_marker_ n) v.

(** The switch on [traj_id] that writes the sine curve parameters; it has no
    [default]. *)
Definition write_sine_parameters (n : t) : t :=
  match traj_id n with
  | 0 => set_sine 1 1 4 M_PI 0.25%float n
  | 1 => set_sine 2 3 4 (4 * M_PI / 3)%float 0.25%float n
  | 2 => set_sine 1 3 4 M_PI 0.25%float n
  | 3 => set_sine 2 2 5 M_PI 0.2%float n
  | 4 => set_sine 2 3 5 (8 * M_PI / 5)%float 0.2%float n
  | 5 => set_sine 2 4 5 M_PI 0.2%float n
  | _ => n
  end.

(** [ref_callback]. *)
Definition ref_callback (msg : PosInfo.t) (self : t) : result t :=
  v <- vec_set (ref_pos self) 0 (PosInfo.ref_position_0 msg) ;;
  v <- vec_set v 1 (PosInfo.ref_position_1 msg) ;;
  v <- vec_set v 2 (PosInfo.ref_position_2 msg) ;;
  Ok (set_ref_pos v self).

(** [count_callback]. *)
Definition count_callback (msg : Float64.t) (self : t) : t :=
  let self := set_controller_seconds (int_of_double (Float64.data msg)) self in
  if negb (controller_seconds self =? 0)
  then set_countdown_count (max_smoothing_time - controller_seconds self) self
  else self.

(** [marker_callback]: the new state of the node and the array it publishes.
    The three clock readings are those of [generate_tcp_marker],
    [generate_ref_ball] and [generate_countdown]. *)
Definition marker_callback (now_tcp now_ref now_text : Time) (self : t)
    : result (t * MarkerArray) :=
  let markers : MarkerArray := [] in
  let markers := push_back markers (traj_marker_ self) in
  let self := set_tcp_marker_ (generate_tcp_marker now_tcp (tcp_marker_ self)) self in
  let markers := push_back markers (tcp_marker_ self) in
  let d := 0.1%float in
  r0 <- vec_at (ref_pos self) 0 ;;
  d <- (if negb (r0 =? 0)%float
        then r0 <- vec_at (ref_pos self) 0 ;;
             o0 <- vec_at (origin self) 0 ;;
             Ok (r0 - o0 + 0.05)%float
        else Ok d) ;;
  r0 <- vec_at (ref_pos self) 0 ;;
  r1 <- vec_at (ref_pos self) 1 ;;
  r2 <- vec_at (ref_pos self) 2 ;;
  ref_marker <- generate_ref_ball now_ref (ref_marker_ self) r0 r1 r2 d (traj_marker_ self) ;;
  let self := set_ref_marker_ ref_marker self in
  let markers := push_back markers (ref_marker_ self) in
  markers <- (if (0 <=? countdown_count self) || (countdown_count self =? -10)
              then countdown_text <- generate_countdown now_text (countdown_count self) (bar_center self) ;;
                   Ok (push_back markers countdown_text)
              else Ok markers) ;;
  Ok (self, markers).

(** The messages the executor delivers to the node, one at a time: the wall
    timer of 20 ms and the two subscriptions. *)
Inductive event : Type :=
| Timer (now_tcp now_ref now_text : Time)
| TcpPosition (msg : PosInfo.t)
| Countdown (msg : Float64.t).

(** One callback; with the new state, what it publishes on
    [visualization_marker_array]. *)
Definition dispatch (e : event) (self : t) : result (t * list MarkerArray) :=
  match e with
  | Timer now_tcp now_ref now_text =>
      r <- marker_callback now_tcp now_ref now_text self ;;
      Ok (fst r, [snd r])
  | TcpPosition msg =>
      self <- ref_callback msg self ;;
      Ok (self, [])
  | Countdown msg => Ok (count_callback msg self, [])
  end.

Fixpoint spin (es : list event) (self : t) : result (t * list MarkerArray) :=
  match es with
  | [] => Ok (self, [])
  | e :: es' =>
      r <- dispatch e self ;;
      r' <- spin es' (fst r) ;;
      Ok (fst r', snd r ++ snd r')
  end.

Section Constructor.

Variable sin : float -> float.

(** The constructor from [print_params] on (line 87), given the four [int]
    members that lines 83-86 have parsed.  [print_params] writes to the
    standard output only. *)
Definition new (p_use_depth p_part_id p_alpha_id p_traj_id : Z) (now : Time)
    : result t :=
  let self := members |> set_params p_use_depth p_part_id p_alpha_id p_traj_id in
  let self := write_sine_parameters self in
  traj_marker <-
    generate_traj_marker sin (origin self) max_points
      (double_of_int (pa self)) (double_of_int (pb self)) (double_of_int (pc self))
      (ps self) (ph self) (traj_height self) (traj_width self) (traj_depth self)
      (use_depth self) now (traj_marker_ self) ;;
  Ok (set_traj_marker_ traj_marker self).

(** The states the node goes through. *)
Inductive reachable : t -> Prop :=
| reachable_new (u p a i : Z) (now : Time) (self : t) :
    new u p a i now = Ok self -> reachable self
| reachable_dispatch (e : event) (self self' : t) (out : list MarkerArray) :
    reachable self -> dispatch e self = Ok (self', out) -> reachable self'.

(** The whole constructor.  Lines 77-86 declare the four parameters with the
    default 0, which makes them 64-bit integers, and read each one through
    [std::stoi] of its decimal string: a value that no [int] holds throws
    [std::out_of_range] before the node exists. *)
Definition construct (v_use_depth v_part_id v_alpha_id v_traj_id : Z) (now : Time)
    : result t :=
  p_use_depth <- stoi_of_integer v_use_depth ;;
  p_part_id <- stoi_of_integer v_part_id ;;
  p_alpha_id <- stoi_of_integer v_alpha_id ;;
  p_traj_id <- stoi_of_integer v_traj_id ;;
  new p_use_depth p_part_id p_alpha_id p_traj_id now.

End Constructor.

(** Whether a message on [countdown] keeps [count_callback] within the
    arithmetic of [int]: the cast of its data is defined and the subtraction
    from [max_smoothing_time] does not overflow. *)
Definition elapsed_time_in_range (d : float) : bool :=
  cast_defined d && fits_int (max_smoothing_time - int_of_double d).

Definition event_in_range (e : event) : bool :=
  match e with
  | Countdown msg => elapsed_time_in_range (Float64.data msg)
  | _ => true
  end.

End MarkerPublisher.

(** ** A sine to run the node with

    The node is run on concrete inputs with this stand-in for the library
    function: the argument is reduced to [-pi, pi] and the odd Taylor
    polynomial of degree 21 is evaluated by Horner's rule. *)

Definition sin_series (r : float) : float :=
  let r2 := (r * r)%float in
  let c (k : Z) (acc : float) : float :=
    (1 - r2 / double_of_int (k * (k + 1)) * acc)%float in
  let s := c 2 (c 4 (c 6 (c 8 (c 10 (c 12 (c 14 (c 16 (c 18 (c 20 1%float))))))))) in
  (r * s)%float.

Definition sin_reduced (x : float) : float :=
  let turns := (x / (2 * M_PI))%float in
  let k := double_of_int (int_of_double (turns + (if (turns <? 0)%float then -0.5 else 0.5))%float) in
  sin_series (x - k * (2 * M_PI))%float.

(** * Definitions used to state the properties *)

(** The values [count], [count + 1], ... the loop counter takes in [n] turns. *)
Fixpoint counts (count : Z) (n : nat) : list Z :=
  match n with
  | O => []
  | S n' => count :: counts (count + 1) n'
  end.

Section CurveSample.

Variable sin : float -> float.
Variables (o0 o1 o2 : float) (max_points : Z).
Variables (pa pb pc ps ph height width depth : float) (use_depth : Z).

(** The point of the curve at [count], as section 4.1 of the specification
    writes it: [t = count / max_points * 2 pi], the depth profile
    [|t - pi| / pi * depth - depth / 2] when [use_depth] is set and 0
    otherwise, [y = t / (2 pi) * width - width / 2], the three sines scaled by
    [ph * height], and the result shifted by the origin. *)
Definition curve_sample (count : Z) : Point.t :=
  let t := (double_of_int count / double_of_int max_points * 2 * M_PI)%float in
  let x :=
    if use_depth =? 0 then 0%float
    else (abs (t - M_PI) / M_PI * depth - depth / 2)%float in
  let y := (t / (2 * M_PI) * width - width / 2)%float in
  let z :=
    (ph * height * (sin (pa * (t + ps)) + sin (pb * (t + ps)) + sin (pc * (t + ps))))%float in
  Point.mk (x + o0) (y + o1) (z + o2).

End CurveSample.

(** The node under construction, just before the trajectory is generated. *)
Definition before_trajectory (u p a i : Z) : MarkerPublisher.t :=
  MarkerPublisher.write_sine_parameters (MarkerPublisher.set_params u p a i MarkerPublisher.members).

(** The samples of the session: the origin, the bounds and [max_points] of
    the node, and the coefficients the switch left in [n]. *)
Definition session_sample (sin : float -> float) (n : MarkerPublisher.t) : Z -> Point.t :=
  curve_sample sin 0.5059 0.0 0.4346 MarkerPublisher.max_points
    (double_of_int (MarkerPublisher.pa n)) (double_of_int (MarkerPublisher.pb n))
    (double_of_int (MarkerPublisher.pc n)) (MarkerPublisher.ps n) (MarkerPublisher.ph n)
    0.1 0.3 0.1 (MarkerPublisher.use_depth n).

(** The counts shown after each of a sequence of messages on [countdown]. *)
Fixpoint countdown_after (msgs : list Float64.t) (self : MarkerPublisher.t) : list Z :=
  match msgs with
  | [] => []
  | msg :: msgs' =>
      let self' := MarkerPublisher.count_callback msg self in
      MarkerPublisher.countdown_count self' :: countdown_after msgs' self'
  end.

(** What the countdown text shows: its text, its colour and its place. *)
Definition label_of (r : result Marker.t) : result (string * ColorRGBA.t * Point.t) :=
  m <- r ;; Ok (Marker.text m, Marker.color m, Marker.position m).

(** The distance [d] that [marker_callback] hands to [generate_ref_ball]. *)
Definition ball_distance (r0 o0 : float) : float :=
  if negb (r0 =? 0)%float then (r0 - o0 + 0.05)%float else 0.1%float.

(** Whether [marker_callback] adds the countdown text. *)
Definition shows_countdown (count : Z) : bool := (0 <=? count) || (count =? -10).

(** What every state of the node keeps from its construction. *)
Definition session_state (n : MarkerPublisher.t) : Prop :=
  MarkerPublisher.origin n = [0.5059; 0.0; 0.4346]%float
  /\ MarkerPublisher.bar_center n = [0.3; 0.0; 0.05]%float
  /\ (exists r0 r1 r2, MarkerPublisher.ref_pos n = [r0; r1; r2])
  /\ List.length (Marker.points (MarkerPublisher.traj_marker_ n)) = 201%nat
  /\ Marker.id (MarkerPublisher.traj_marker_ n) = 2
  /\ Marker.type (MarkerPublisher.traj_marker_ n) = Marker.LINE_STRIP.

(** [main]: the node is constructed, then spun on the messages [es]. *)
Definition main (sin : float -> float) (u p a i : Z) (now : Time)
    (es : list MarkerPublisher.event)
    : result (MarkerPublisher.t * list MarkerArray) :=
  self <- MarkerPublisher.new sin u p a i now ;;
  MarkerPublisher.spin es self.

(** [main] from the values of the four parameters: the constructor reads them
    first. *)
Definition main_from_parameters (sin : float -> float)
    (v_use_depth v_part_id v_alpha_id v_traj_id : Z) (now : Time)
    (es : list MarkerPublisher.event)
    : result (MarkerPublisher.t * list MarkerArray) :=
  self <- MarkerPublisher.construct sin v_use_depth v_part_id v_alpha_id v_traj_id now ;;
  MarkerPublisher.spin es self.

(** The node as its constructor leaves it when every parameter is 0, run with
    [sin_reduced]. *)
Definition node_0 : MarkerPublisher.t :=
  match MarkerPublisher.new sin_reduced 0 0 0 0 0 with
  | Ok self => self
  | _ => MarkerPublisher.members
  end.

(** Whether an array holds a text marker. *)
Definition has_text (markers : MarkerArray) : bool :=
  existsb (fun m => Marker.type m =? Marker.TEXT_VIEW_FACING) markers.

(** The counts for which the specification lets the countdown text appear. *)
Definition listed_count (count : Z) : bool :=
  existsb (Z.eqb count) [5; 4; 3; 2; 1; 0; -10].

(** Whether two doubles differ by [tolerance] at most. *)
Definition within (tolerance a b : float) : bool := (abs (a - b) <=? tolerance)%float.

(** What the constructor fixes: the parameters, the origin, the centre of the
    bar, the coefficients, the bounds and the trajectory. *)
Definition constructed (n : MarkerPublisher.t) :=
  (MarkerPublisher.use_depth n, MarkerPublisher.part_id n, MarkerPublisher.alpha_id n,
   MarkerPublisher.traj_id n,
   (MarkerPublisher.origin n, MarkerPublisher.bar_center n),
   (MarkerPublisher.pa n, MarkerPublisher.pb n, MarkerPublisher.pc n,
    MarkerPublisher.ps n, MarkerPublisher.ph n),
   (MarkerPublisher.traj_height n, MarkerPublisher.traj_width n, MarkerPublisher.traj_depth n),
   MarkerPublisher.traj_marker_ n).

(** The number of turns of the timer among the messages [es]. *)
Fixpoint timers (es : list MarkerPublisher.event) : nat :=
  match es with
  | [] => O
  | MarkerPublisher.Timer _ _ _ :: es' => S (timers es')
  | _ :: es' => timers es'
  end.

(** The fields of a marker that [generate_tcp_marker] does not write are
    those of a default marker. *)
Definition tcp_unwritten_default (m : Marker.t) : Prop :=
  ColorRGBA.g (Marker.color m) = 0%float /\ ColorRGBA.b (Marker.color m) = 0%float
  /\ Marker.points m = [] /\ Marker.text m = EmptyString.

(** The same for [generate_ref_ball]. *)
Definition ref_unwritten_default (m : Marker.t) : Prop :=
  ColorRGBA.r (Marker.color m) = 0%float /\ ColorRGBA.b (Marker.color m) = 0%float
  /\ Marker.points m = [] /\ Marker.text m = EmptyString.

(** Whether each double of a list is less than the next one. *)
Fixpoint increasing (l : list float) : bool :=
  match l with
  | a :: (b :: _) as l' => (a <? b)%float && increasing l'
  | _ => true
  end.

(** The two counters of the countdown are [int]s and, when the elapsed time
    is not 0, add up to [max_smoothing_time]. *)
Definition countdown_consistent (n : MarkerPublisher.t) : Prop :=
  fits_int (MarkerPublisher.controller_seconds n) = true
  /\ fits_int (MarkerPublisher.countdown_count n) = true
  /\ (MarkerPublisher.controller_seconds n <> 0 ->
      MarkerPublisher.countdown_count n + MarkerPublisher.controller_seconds n
      = MarkerPublisher.max_smoothing_time).

(** * Properties *)

(** ** The monad and the vectors *)

Lemma marker_set_points_same (m : Marker.t) :
  Marker.set_points (Marker.points m) m = m.
Proof. destruct m; reflexivity. Qed.

(** ** The sampled curve *)

Lemma counts_length (n : nat) : forall count, List.length (counts count n) = n.
Proof.
  induction n as [| n IH]; intros count; simpl; [reflexivity |].
  now rewrite IH.
Qed.


Lemma counts_range (n : nat) :
  forall count c, In c (counts count n) -> count <= c < count + Z.of_nat n.
Proof.
  induction n as [| n IH]; intros count c Hc; simpl in Hc; [contradiction |].
  destruct Hc as [<- | Hc]; [lia |].
  apply IH in Hc. lia.
Qed.

(** The counter of the loop stays between 0 and [max_points + 1]: when
    [max_points] is below the largest [int], [count++] does not overflow. *)
Lemma loop_counter_in_int (max_points : Z) (c : Z) :
  max_points < 2 ^ 31 - 1 ->
  In c (counts 0 (Z.to_nat (max_points + 1))) ->
  0 <= c <= max_points /\ c + 1 <= 2 ^ 31 - 1.
Proof.
  intros Hmax Hc. apply counts_range in Hc. lia.
Qed.

Section Curve.

Variable sin : float -> float.
Variables (o0 o1 o2 : float) (orest : list float) (max_points : Z).
Variables (pa pb pc ps ph height width depth : float) (use_depth : Z).

Let origin : list float := o0 :: o1 :: o2 :: orest.

Lemma traj_point_sample (count : Z) :
  traj_point sin origin max_points pa pb pc ps ph height width depth use_depth count
  = Ok (curve_sample sin o0 o1 o2 max_points pa pb pc ps ph height width depth use_depth count).
Proof.
  unfold traj_point, curve_sample, truthy, origin; simpl.
  destruct (use_depth =? 0); reflexivity.
Qed.

(** The loop leaves by its test, never by the fuel, and appends one sample
    for each value of the counter up to [max_points]. *)
Lemma traj_loop_run (n : nat) :
  forall (count : Z) (m : Marker.t) (fuel : nat),
    n = Z.to_nat (max_points + 1 - count) ->
    (n < fuel)%nat ->
    traj_loop sin origin max_points pa pb pc ps ph height width depth use_depth fuel count m
    = Ok (Marker.set_points
            (Marker.points m
             ++ map (curve_sample sin o0 o1 o2 max_points pa pb pc ps ph
                       height width depth use_depth)
                    (counts count n))
            m).
Proof.
  induction n as [| n IH]; intros count m fuel Hn Hfuel;
    (destruct fuel as [| fuel]; [lia |]); cbn [traj_loop counts map].
  - destruct (Z.leb_spec count max_points) as [Hle | Hgt]; [lia |].
    now rewrite app_nil_r, marker_set_points_same.
  - destruct (Z.leb_spec count max_points) as [Hle | Hgt]; [| lia].
    rewrite traj_point_sample; cbn [bind].
    rewrite IH by lia.
    destruct m; unfold Marker.points_push_back, push_back, Marker.set_points; simpl.
    now rewrite <- app_assoc.
Qed.

(** What [generate_traj_marker] returns. *)
Lemma generate_traj_marker_run (now : Time) (m : Marker.t) :
  exists m',
    generate_traj_marker sin origin max_points pa pb pc ps ph height width depth use_depth now m
    = Ok m'
    /\ Marker.points m'
       = Marker.points m
         ++ map (curve_sample sin o0 o1 o2 max_points pa pb pc ps ph
                   height width depth use_depth)
                (counts 0 (Z.to_nat (max_points + 1)))
    /\ Marker.id m' = 2
    /\ Marker.type m' = Marker.LINE_STRIP.
Proof.
  unfold generate_traj_marker.
  rewrite (traj_loop_run (Z.to_nat (max_points + 1))) by (f_equal; lia || lia).
  eexists; split; [reflexivity |].
  destruct m; repeat split; reflexivity.
Qed.

End Curve.


(** ** The constructor *)

Lemma write_sine_parameters_frame (n : MarkerPublisher.t) :
  let n' := MarkerPublisher.write_sine_parameters n in
  MarkerPublisher.origin n' = MarkerPublisher.origin n
  /\ MarkerPublisher.ref_pos n' = MarkerPublisher.ref_pos n
  /\ MarkerPublisher.bar_center n' = MarkerPublisher.bar_center n
  /\ MarkerPublisher.countdown_count n' = MarkerPublisher.countdown_count n
  /\ MarkerPublisher.use_depth n' = MarkerPublisher.use_depth n
  /\ MarkerPublisher.traj_height n' = MarkerPublisher.traj_height n
  /\ MarkerPublisher.traj_width n' = MarkerPublisher.traj_width n
  /\ MarkerPublisher.traj_depth n' = MarkerPublisher.traj_depth n
  /\ MarkerPublisher.traj_marker_ n' = MarkerPublisher.traj_marker_ n.
Proof.
  unfold MarkerPublisher.write_sine_parameters.
  repeat match goal with
         | |- context [match ?v with _ => _ end] => destruct v
         end; repeat split; reflexivity.
Qed.

(** The constructor returns, and the trajectory of the node it returns is the
    list of the 201 samples. *)
Lemma new_run (sin : float -> float) (u p a i : Z) (now : Time) :
  exists m,
    MarkerPublisher.new sin u p a i now
    = Ok (MarkerPublisher.set_traj_marker_ m (before_trajectory u p a i))
    /\ Marker.points m
       = map (session_sample sin (before_trajectory u p a i)) (counts 0 201)
    /\ Marker.id m = 2
    /\ Marker.type m = Marker.LINE_STRIP.
Proof.
  unfold MarkerPublisher.new. fold (before_trajectory u p a i).
  destruct (write_sine_parameters_frame
              (MarkerPublisher.set_params u p a i MarkerPublisher.members))
    as (Ho & _ & _ & _ & Hu & Hh & Hw & Hd & Hm).
  fold (before_trajectory u p a i) in Ho, Hu, Hh, Hw, Hd, Hm.
  rewrite Ho, Hu, Hh, Hw, Hd, Hm.
  cbn [MarkerPublisher.origin MarkerPublisher.use_depth MarkerPublisher.traj_height
       MarkerPublisher.traj_width MarkerPublisher.traj_depth MarkerPublisher.traj_marker_
       MarkerPublisher.set_params MarkerPublisher.members].
  destruct (generate_traj_marker_run sin 0.5059 0.0 0.4346 [] MarkerPublisher.max_points
              (double_of_int (MarkerPublisher.pa (before_trajectory u p a i)))
              (double_of_int (MarkerPublisher.pb (before_trajectory u p a i)))
              (double_of_int (MarkerPublisher.pc (before_trajectory u p a i)))
              (MarkerPublisher.ps (before_trajectory u p a i))
              (MarkerPublisher.ph (before_trajectory u p a i))
              0.1 0.3 0.1 u now Marker.default) as (m & Hrun & Hpts & Hid & Htype).
  exists m. rewrite Hrun; split; [reflexivity |].
  split; [| split; [exact Hid | exact Htype]].
  rewrite Hpts. unfold session_sample. rewrite Hu. reflexivity.
Qed.

(** C2.  For every non-negative [max_points = N] the generated trajectory has
    exactly [N + 1] points; in the session [max_points] is 200 and the
    trajectory of the node has 201 points.  [N] is an [int] below [INT_MAX],
    so that the counter of the loop, which ends at [N + 1], is an [int]. *)
Theorem trajectory_has_N_plus_1_points
    (sin : float -> float) (o0 o1 o2 : float) (N : Z)
    (pa pb pc ps ph height width depth : float) (use_depth : Z) (now : Time) :
  0 <= N ->
  N < INT_MAX ->
  (exists m,
     generate_traj_marker sin [o0; o1; o2] N pa pb pc ps ph height width depth
       use_depth now Marker.default = Ok m
     /\ Z.of_nat (List.length (Marker.points m)) = N + 1)
  /\ MarkerPublisher.max_points = 200
  /\ (forall u p a i now',
        exists self,
          MarkerPublisher.new sin u p a i now' = Ok self
          /\ List.length (Marker.points (MarkerPublisher.traj_marker_ self)) = 201%nat).
Proof.
  intros HN _; split; [| split; [reflexivity |]].
  - destruct (generate_traj_marker_run sin o0 o1 o2 [] N pa pb pc ps ph
                height width depth use_depth now Marker.default) as (m & Hrun & Hpts & _).
    exists m; split; [exact Hrun |].
    rewrite Hpts; simpl. rewrite length_map, counts_length. lia.
  - intros u p a i now'.
    destruct (new_run sin u p a i now') as (m & Hnew & Hpts & _).
    eexists; split; [exact Hnew |].
    simpl. rewrite Hpts, length_map, counts_length. reflexivity.
Qed.

(** ** The countdown *)

Example int_of_double_truncates :
  map int_of_double [3.7; -3.7; 0.9; -0.9; 5; 15.2]%float = [3; -3; 0; 0; 5; 15].
Proof. reflexivity. Qed.

(** C3.  An elapsed time whose integer value [e] is not 0 sets the countdown
    to [max_smoothing_time - e], with [max_smoothing_time = 5]; the value 0
    leaves the countdown as it was.  The elapsed times 0, 1, 2, 3, 4, 5 give
    the countdowns unchanged, 4, 3, 2, 1, 0.  The elapsed time is one that
    [int] arithmetic handles: a finite double whose truncation [e] and whose
    difference [max_smoothing_time - e] fit an [int]. *)
Theorem count_callback_countdown (msg : Float64.t) (self : MarkerPublisher.t) :
  let e := int_of_double (Float64.data msg) in
  MarkerPublisher.elapsed_time_in_range (Float64.data msg) = true ->
  MarkerPublisher.max_smoothing_time = 5
  /\ MarkerPublisher.countdown_count (MarkerPublisher.count_callback msg self)
     = (if e =? 0 then MarkerPublisher.countdown_count self
        else MarkerPublisher.max_smoothing_time - e)
  /\ forallb MarkerPublisher.elapsed_time_in_range [0; 1; 2; 3; 4; 5]%float = true
  /\ countdown_after (map Float64.mk [0; 1; 2; 3; 4; 5]%float) self
     = [MarkerPublisher.countdown_count self; 4; 3; 2; 1; 0].
Proof.
  intros e _; split; [reflexivity | split; [| split; reflexivity]].
  unfold MarkerPublisher.count_callback; simpl. fold e.
  destruct (e =? 0); reflexivity.
Qed.

Lemma count_callback_countdown_witness :
  MarkerPublisher.elapsed_time_in_range 3.7 = true
  /\ int_of_double 3.7 = 3
  /\ MarkerPublisher.countdown_count
       (MarkerPublisher.count_callback (Float64.mk 3.7) MarkerPublisher.members) = 2.
Proof.
  split; [reflexivity | split; [reflexivity |]].
  destruct (count_callback_countdown (Float64.mk 3.7) MarkerPublisher.members eq_refl)
    as (_ & Hcount & _).
  exact Hcount.
Defined.

(** C4.  The countdown text for the counts 5, 4, 3 is the number in red, for
    2 and 1 the number in red and green, for 0 it is "Go!" in green and for
    -10 it is "Stop!" in red; it stands at the centre of the bar, 0.05
    higher. *)
Theorem generate_countdown_render (now : Time) (c0 c1 c2 : float) :
  let center := [c0; c1; c2] in
  let place := Point.mk c0 c1 (c2 + 0.05)%float in
  let red := ColorRGBA.mk 1 0 0 1 in
  let yellow := ColorRGBA.mk 1 1 0 1 in
  let green := ColorRGBA.mk 0 1 0 1 in
  label_of (generate_countdown now 5 center) = Ok ("5"%string, red, place)
  /\ label_of (generate_countdown now 4 center) = Ok ("4"%string, red, place)
  /\ label_of (generate_countdown now 3 center) = Ok ("3"%string, red, place)
  /\ label_of (generate_countdown now 2 center) = Ok ("2"%string, yellow, place)
  /\ label_of (generate_countdown now 1 center) = Ok ("1"%string, yellow, place)
  /\ label_of (generate_countdown now 0 center) = Ok ("Go!"%string, green, place)
  /\ label_of (generate_countdown now (-10) center) = Ok ("Stop!"%string, red, place).
Proof. repeat split; reflexivity. Qed.

(** ** One turn of the timer *)

Lemma generate_countdown_run (now : Time) (count : Z) (c0 c1 c2 : float) (crest : list float) :
  exists label,
    generate_countdown now count (c0 :: c1 :: c2 :: crest) = Ok label
    /\ Marker.id label = 10
    /\ Marker.type label = Marker.TEXT_VIEW_FACING.
Proof.
  unfold generate_countdown; cbn [vec_at nth_error bind].
  eexists; split; [reflexivity |].
  split;
    repeat match goal with
           | |- context [match ?v with _ => _ end] => destruct v
           end; reflexivity.
Qed.

Lemma generate_ref_ball_run (now : Time) (m : Marker.t) (x y z d : float)
    (traj : Marker.t) (p0 : Point.t) (ptl : list Point.t) :
  Marker.points traj = p0 :: ptl ->
  exists ball,
    generate_ref_ball now m x y z d traj = Ok ball
    /\ Marker.id ball = 0
    /\ Marker.type ball = Marker.SPHERE
    /\ Marker.scale ball
       = (let my_size := 0.015 + d / 20 in Vector3.mk my_size my_size my_size)%float
    /\ Marker.position ball = if (x =? 0)%float then p0 else Point.mk x y z.
Proof.
  intros Hpts. destruct p0 as [px py pz]. unfold generate_ref_ball. rewrite Hpts.
  destruct (x =? 0)%float; cbn [vec_at nth_error bind];
    (eexists; split; [reflexivity |]); repeat split; reflexivity.
Qed.

Lemma marker_callback_run (now_tcp now_ref now_text : Time) (self : MarkerPublisher.t)
    (r0 r1 r2 o0 c0 c1 c2 : float) (orest rrest crest : list float)
    (p0 : Point.t) (ptl : list Point.t) :
  MarkerPublisher.ref_pos self = r0 :: r1 :: r2 :: rrest ->
  MarkerPublisher.origin self = o0 :: orest ->
  MarkerPublisher.bar_center self = c0 :: c1 :: c2 :: crest ->
  Marker.points (MarkerPublisher.traj_marker_ self) = p0 :: ptl ->
  let tcp := generate_tcp_marker now_tcp (MarkerPublisher.tcp_marker_ self) in
  let count := MarkerPublisher.countdown_count self in
  exists ball label,
    generate_ref_ball now_ref (MarkerPublisher.ref_marker_ self) r0 r1 r2
      (ball_distance r0 o0) (MarkerPublisher.traj_marker_ self) = Ok ball
    /\ (Marker.id ball = 0 /\ Marker.type ball = Marker.SPHERE)
    /\ Marker.scale ball
       = (let my_size := 0.015 + ball_distance r0 o0 / 20 in
          Vector3.mk my_size my_size my_size)%float
    /\ Marker.position ball = (if (r0 =? 0)%float then p0 else Point.mk r0 r1 r2)
    /\ generate_countdown now_text count (MarkerPublisher.bar_center self) = Ok label
    /\ (Marker.id label = 10 /\ Marker.type label = Marker.TEXT_VIEW_FACING)
    /\ MarkerPublisher.marker_callback now_tcp now_ref now_text self
       = Ok (MarkerPublisher.set_ref_marker_ ball (MarkerPublisher.set_tcp_marker_ tcp self),
             [MarkerPublisher.traj_marker_ self; tcp; ball]
             ++ (if shows_countdown count then [label] else [])).
Proof.
  intros Href Horigin Hbar Hpts tcp count.
  destruct (generate_ref_ball_run now_ref (MarkerPublisher.ref_marker_ self) r0 r1 r2
              (ball_distance r0 o0) _ _ _ Hpts)
    as (ball & Hball & Hbid & Hbtype & Hbscale & Hbpos).
  destruct (generate_countdown_run now_text count c0 c1 c2 crest)
    as (label & Hlabel & Hlid & Hltype).
  exists ball, label. rewrite Hbar.
  split; [exact Hball |]. split; [now split |].
  split; [exact Hbscale |]. split; [exact Hbpos |].
  split; [exact Hlabel |]. split; [now split |].
  unfold MarkerPublisher.marker_callback.
  cbn [MarkerPublisher.ref_pos MarkerPublisher.origin MarkerPublisher.bar_center
       MarkerPublisher.countdown_count MarkerPublisher.traj_marker_
       MarkerPublisher.ref_marker_ MarkerPublisher.tcp_marker_
       MarkerPublisher.set_tcp_marker_ MarkerPublisher.set_ref_marker_].
  rewrite Href, Horigin, Hbar. cbn [vec_at nth_error bind].
  fold tcp count.
  assert (Hd : (if negb (r0 =? 0)%float
                then Ok (r0 - o0 + 0.05)%float else Ok 0.1%float)
               = Ok (ball_distance r0 o0))
    by (unfold ball_distance; destruct (r0 =? 0)%float; reflexivity).
  rewrite Hd.
  cbn [bind]. rewrite Hball. cbn [bind].
  fold (shows_countdown count).
  destruct (shows_countdown count); [rewrite Hlabel |]; reflexivity.
Qed.

(** ** The states of the session *)

Lemma session_state_first_point (n : MarkerPublisher.t) :
  session_state n ->
  exists p0 ptl, Marker.points (MarkerPublisher.traj_marker_ n) = p0 :: ptl.
Proof.
  intros (_ & _ & _ & Hlen & _).
  destruct (Marker.points (MarkerPublisher.traj_marker_ n)) as [| p0 ptl];
    [discriminate | now exists p0, ptl].
Qed.

Lemma new_session_state (sin : float -> float) (u p a i : Z) (now : Time)
    (self : MarkerPublisher.t) :
  MarkerPublisher.new sin u p a i now = Ok self -> session_state self.
Proof.
  intros Hnew.
  destruct (new_run sin u p a i now) as (m & Hrun & Hpts & Hid & Htype).
  rewrite Hrun in Hnew. injection Hnew as <-.
  destruct (write_sine_parameters_frame
              (MarkerPublisher.set_params u p a i MarkerPublisher.members))
    as (Ho & Hr & Hb & _).
  fold (before_trajectory u p a i) in Ho, Hr, Hb.
  unfold session_state; cbn [MarkerPublisher.origin MarkerPublisher.bar_center
    MarkerPublisher.ref_pos MarkerPublisher.traj_marker_ MarkerPublisher.set_traj_marker_].
  rewrite Ho, Hr, Hb, Hpts, length_map, counts_length, Hid, Htype.
  repeat split. now exists 0%float, 0%float, 0%float.
Qed.

Lemma ref_callback_run (msg : PosInfo.t) (self : MarkerPublisher.t) (r0 r1 r2 : float) :
  MarkerPublisher.ref_pos self = [r0; r1; r2] ->
  MarkerPublisher.ref_callback msg self
  = Ok (MarkerPublisher.set_ref_pos
          [PosInfo.ref_position_0 msg; PosInfo.ref_position_1 msg; PosInfo.ref_position_2 msg]
          self).
Proof.
  intros Href. unfold MarkerPublisher.ref_callback. rewrite Href. reflexivity.
Qed.

Lemma dispatch_session_state (e : MarkerPublisher.event) (self self' : MarkerPublisher.t)
    (out : list MarkerArray) :
  session_state self ->
  MarkerPublisher.dispatch e self = Ok (self', out) ->
  session_state self'.
Proof.
  intros Hself Hstep.
  destruct (session_state_first_point self Hself) as (p0 & ptl & Hfirst).
  destruct Hself as (Ho & Hb & (r0 & r1 & r2 & Hr) & Hlen & Hid & Htype).
  destruct e as [now_tcp now_ref now_text | msg | msg]; cbn [MarkerPublisher.dispatch] in Hstep.
  - destruct (marker_callback_run now_tcp now_ref now_text self _ _ _ _ _ _ _ _ _ _ _ _
                Hr Ho Hb Hfirst) as (ball & label & _ & _ & _ & _ & _ & _ & Hrun).
    rewrite Hrun in Hstep. cbn [bind fst snd] in Hstep. injection Hstep as <- _.
    unfold session_state. cbn. rewrite Ho, Hb, Hr, Hlen, Hid, Htype.
    repeat split. now exists r0, r1, r2.
  - rewrite (ref_callback_run msg self r0 r1 r2 Hr) in Hstep.
    cbn [bind] in Hstep. injection Hstep as <- _.
    unfold session_state. cbn. rewrite Ho, Hb, Hlen, Hid, Htype.
    repeat split. now eexists _, _, _.
  - injection Hstep as <- _.
    unfold session_state, MarkerPublisher.count_callback.
    destruct (negb _); cbn; rewrite Ho, Hb, Hr, Hlen, Hid, Htype;
      (repeat split; now exists r0, r1, r2).
Qed.

Lemma reachable_session_state (sin : float -> float) (self : MarkerPublisher.t) :
  MarkerPublisher.reachable sin self -> session_state self.
Proof.
  induction 1 as [u p a i now self Hnew | e self self' out _ IH Hstep].
  - exact (new_session_state sin u p a i now self Hnew).
  - exact (dispatch_session_state e self self' out IH Hstep).
Qed.

(** ** The session *)

Lemma node_0_new : MarkerPublisher.new sin_reduced 0 0 0 0 0 = Ok node_0.
Proof. vm_compute. reflexivity. Qed.

Lemma node_0_reachable : MarkerPublisher.reachable sin_reduced node_0.
Proof. exact (MarkerPublisher.reachable_new sin_reduced 0 0 0 0 0 node_0 node_0_new). Qed.

(** C5, as the claim states it, fails: an elapsed time of -1 s sets the
    countdown to 6, which is none of 5, 4, 3, 2, 1, 0, -10, and the next turn
    of the timer publishes a fourth marker, the text "6". *)
Lemma countdown_text_at_count_6 :
  exists self markers,
    main sin_reduced 0 0 0 0 0
      [MarkerPublisher.Countdown (Float64.mk (-1)); MarkerPublisher.Timer 1 2 3]
    = Ok (self, [markers])
    /\ MarkerPublisher.countdown_count self = 6
    /\ listed_count 6 = false
    /\ has_text markers = true
    /\ map Marker.id markers = [2; 1; 0; 10]
    /\ map Marker.text markers = [""; ""; ""; "6"]%string.
Proof.
  eexists; eexists; split; [vm_compute; reflexivity |].
  repeat split; reflexivity.
Qed.

Lemma generate_countdown_number_text (now : Time) (count : Z) (center : list float)
    (label : Marker.t) :
  count <> 0 ->
  count <> -10 ->
  generate_countdown now count center = Ok label ->
  Marker.text label = to_string count.
Proof.
  intros Hgo Hstop.
  assert (H0 : (count =? 0) = false) by (apply Z.eqb_neq; exact Hgo).
  assert (H10 : (count =? -10) = false) by (apply Z.eqb_neq; exact Hstop).
  unfold generate_countdown. rewrite H0, H10.
  destruct center as [| c0 [| c1 [| c2 crest]]]; cbn [vec_at nth_error bind];
    intros H; try discriminate H.
  injection H as <-.
  repeat match goal with
         | |- context [match ?v with _ => _ end] => destruct v
         end; reflexivity.
Qed.

(** C5, amended.  In every state of the session the turn of the timer
    publishes the countdown text exactly when the count is at least 0 or is
    -10: every count of the list 5, 4, 3, 2, 1, 0, -10 shows it, every
    negative count other than -10 hides it, and a count of 6 or more shows
    its decimal number as the fourth marker. *)
Theorem countdown_text_shown_iff (sin : float -> float) (self : MarkerPublisher.t)
    (now_tcp now_ref now_text : Time) :
  MarkerPublisher.reachable sin self ->
  let count := MarkerPublisher.countdown_count self in
  exists self' markers,
    MarkerPublisher.marker_callback now_tcp now_ref now_text self = Ok (self', markers)
    /\ has_text markers = (0 <=? count) || (count =? -10)
    /\ (listed_count count = true -> has_text markers = true)
    /\ (count < 0 -> count <> -10 -> has_text markers = false)
    /\ (6 <= count ->
        exists label,
          nth_error markers 3 = Some label /\ Marker.text label = to_string count).
Proof.
  intros Hreach count.
  pose proof (reachable_session_state sin self Hreach) as Hself.
  destruct (session_state_first_point self Hself) as (p0 & ptl & Hfirst).
  destruct Hself as (Ho & Hb & (r0 & r1 & r2 & Hr) & _ & _ & Htype).
  destruct (marker_callback_run now_tcp now_ref now_text self _ _ _ _ _ _ _ _ _ _ _ _
              Hr Ho Hb Hfirst)
    as (ball & label & _ & (_ & Hbtype) & _ & _ & Hlabel & (_ & Hltype) & Hrun).
  fold count in Hrun, Hlabel.
  assert (Hshown : has_text ([MarkerPublisher.traj_marker_ self;
                              generate_tcp_marker now_tcp (MarkerPublisher.tcp_marker_ self);
                              ball]
                             ++ (if shows_countdown count then [label] else []))
                   = (0 <=? count) || (count =? -10)).
  { unfold has_text, shows_countdown.
    destruct ((0 <=? count) || (count =? -10)); cbn [app existsb];
      rewrite Htype, Hbtype, ?Hltype; reflexivity. }
  eexists; eexists; split; [exact Hrun |].
  rewrite Hshown. split; [reflexivity | split; [| split]].
  - unfold listed_count; cbn [existsb]. intros Hlisted.
    repeat (apply orb_true_iff in Hlisted; destruct Hlisted as [Hlisted | Hlisted]);
      try discriminate; apply Z.eqb_eq in Hlisted; subst count; rewrite Hlisted; reflexivity.
  - intros Hneg Hstop.
    destruct (Z.leb_spec 0 count); [lia |].
    destruct (Z.eqb_spec count (-10)); [contradiction | reflexivity].
  - intros Hsix. exists label. split.
    + unfold shows_countdown. destruct (Z.leb_spec 0 count); [reflexivity | lia].
    + apply (generate_countdown_number_text now_text count
               (MarkerPublisher.bar_center self) label); [lia | lia | exact Hlabel].
Qed.

Lemma countdown_text_shown_iff_witness :
  MarkerPublisher.reachable sin_reduced node_0
  /\ exists self' markers,
       MarkerPublisher.marker_callback 1 2 3 node_0 = Ok (self', markers)
       /\ has_text markers = true.
Proof.
  split; [exact node_0_reachable |].
  destruct (countdown_text_shown_iff sin_reduced node_0 1 2 3 node_0_reachable)
    as (self' & markers & Hrun & Hshown & _).
  exists self', markers. split; [exact Hrun | exact Hshown].
Defined.

(** ** The reference ball *)



(** C7, as the claim states it, fails: for the reference position
    (0.55, 0.0, 0.45) the turn of the timer gives the ball the size
    [0.015 + (0.55 - 0.5059 + 0.05) / 20], which is 0.019705; it is more than
    0.0017 away from 0.01795. *)
Lemma reference_ball_size_is_not_0_01795 :
  exists self markers ball,
    main sin_reduced 0 0 0 0 0
      [MarkerPublisher.TcpPosition (PosInfo.mk 0.55 0.0 0.45); MarkerPublisher.Timer 1 2 3]
    = Ok (self, [markers])
    /\ nth_error markers 2 = Some ball
    /\ Vector3.x (Marker.scale ball) = (0.015 + (0.55 - 0.5059 + 0.05) / 20)%float
    /\ Vector3.x (Marker.scale ball) = 0.019705%float
    /\ within 0.0017 (Vector3.x (Marker.scale ball)) 0.01795 = false.
Proof.
  eexists; eexists; eexists; split; [vm_compute; reflexivity |].
  repeat split; reflexivity.
Qed.

(** C7, amended.  In every state of the session, once the reference position
    (0.55, 0.0, 0.45) has arrived, the turn of the timer gives the ball the
    size [0.015 + (0.55 - 0.5059 + 0.05) / 20] in its three directions; the
    origin has 0.5059 as its first component and the size is the double
    0.019705. *)
Theorem reference_ball_size_example (sin : float -> float) (self : MarkerPublisher.t)
    (now_tcp now_ref now_text : Time) :
  MarkerPublisher.reachable sin self ->
  let size := (0.015 + (0.55 - 0.5059 + 0.05) / 20)%float in
  exists self1 self2 markers ball,
    MarkerPublisher.ref_callback (PosInfo.mk 0.55 0.0 0.45) self = Ok self1
    /\ vec_at (MarkerPublisher.origin self1) 0 = Ok 0.5059%float
    /\ MarkerPublisher.marker_callback now_tcp now_ref now_text self1 = Ok (self2, markers)
    /\ nth_error markers 2 = Some ball
    /\ Marker.scale ball = Vector3.mk size size size
    /\ size = 0.019705%float.
Proof.
  intros Hreach size.
  pose proof (reachable_session_state sin self Hreach) as Hself.
  destruct Hself as (Ho & Hb & (r0 & r1 & r2 & Hr) & Hlen & Hid & Htype).
  pose proof (ref_callback_run (PosInfo.mk 0.55 0.0 0.45) self r0 r1 r2 Hr) as Hmsg.
  cbn [PosInfo.ref_position_0 PosInfo.ref_position_1 PosInfo.ref_position_2] in Hmsg.
  set (self1 := MarkerPublisher.set_ref_pos [0.55; 0.0; 0.45]%float self) in Hmsg.
  assert (Hself1 : session_state self1).
  { apply (dispatch_session_state
             (MarkerPublisher.TcpPosition (PosInfo.mk 0.55 0.0 0.45)) self self1 []).
    - repeat split; try assumption. now exists r0, r1, r2.
    - cbn [MarkerPublisher.dispatch]. rewrite Hmsg. reflexivity. }
  destruct (session_state_first_point self1 Hself1) as (p0 & ptl & Hfirst).
  destruct Hself1 as (Ho1 & Hb1 & _).
  destruct (marker_callback_run now_tcp now_ref now_text self1
              0.55 0.0 0.45 _ _ _ _ _ [] _ p0 ptl eq_refl Ho1 Hb1 Hfirst)
    as (ball & label & _ & _ & Hscale & _ & _ & _ & Hrun).
  exists self1; eexists; eexists; exists ball.
  split; [exact Hmsg |]. split; [rewrite Ho1; reflexivity |].
  split; [exact Hrun |]. split; [reflexivity |].
  split; [exact Hscale | reflexivity].
Qed.

Lemma reference_ball_size_example_witness :
  MarkerPublisher.reachable sin_reduced node_0
  /\ exists self1 self2 markers ball,
       MarkerPublisher.ref_callback (PosInfo.mk 0.55 0.0 0.45) node_0 = Ok self1
       /\ MarkerPublisher.marker_callback 1 2 3 self1 = Ok (self2, markers)
       /\ nth_error markers 2 = Some ball
       /\ Marker.scale ball = Vector3.mk 0.019705 0.019705 0.019705.
Proof.
  split; [exact node_0_reachable |].
  destruct (reference_ball_size_example sin_reduced node_0 1 2 3 node_0_reachable)
    as (self1 & self2 & markers & ball & Hmsg & _ & Hrun & Hnth & Hscale & _).
  exists self1, self2, markers, ball. repeat split; assumption.
Defined.

(** ** The array of one turn of the timer *)

(** C9.  The array published at a turn of the timer always holds the
    trajectory and the marker of the tool centre point, and its elements come
    in the order trajectory, tool centre point, reference ball and, when it is
    shown, the countdown text last. *)
Theorem marker_array_order (sin : float -> float) (self : MarkerPublisher.t)
    (now_tcp now_ref now_text : Time) :
  MarkerPublisher.reachable sin self ->
  let traj := MarkerPublisher.traj_marker_ self in
  let tcp := generate_tcp_marker now_tcp (MarkerPublisher.tcp_marker_ self) in
  exists self' ball rest,
    MarkerPublisher.marker_callback now_tcp now_ref now_text self
    = Ok (self', traj :: tcp :: ball :: rest)
    /\ (Marker.type traj = Marker.LINE_STRIP /\ Marker.id traj = 2)
    /\ (Marker.frame_id tcp = "/panda_hand_tcp"%string /\ Marker.id tcp = 1)
    /\ (Marker.type ball = Marker.SPHERE /\ Marker.id ball = 0
        /\ ball = MarkerPublisher.ref_marker_ self')
    /\ (rest = []
        \/ exists label,
             rest = [label]
             /\ Marker.type label = Marker.TEXT_VIEW_FACING /\ Marker.id label = 10).
Proof.
  intros Hreach traj tcp.
  pose proof (reachable_session_state sin self Hreach) as Hself.
  destruct (session_state_first_point self Hself) as (p0 & ptl & Hfirst).
  destruct Hself as (Ho & Hb & (r0 & r1 & r2 & Hr) & _ & Hid & Htype).
  destruct (marker_callback_run now_tcp now_ref now_text self _ _ _ _ _ _ _ _ _ _ _ _
              Hr Ho Hb Hfirst)
    as (ball & label & _ & (Hbid & Hbtype) & _ & _ & _ & (Hlid & Hltype) & Hrun).
  eexists; exists ball; eexists. split; [exact Hrun |].
  split; [now split |]. split; [now split |]. split; [now repeat split |].
  destruct (shows_countdown _); [right; now exists label | now left].
Qed.

Lemma marker_array_order_witness :
  MarkerPublisher.reachable sin_reduced node_0
  /\ exists self' ball rest,
       MarkerPublisher.marker_callback 1 2 3 node_0
       = Ok (self',
             MarkerPublisher.traj_marker_ node_0
             :: generate_tcp_marker 1 (MarkerPublisher.tcp_marker_ node_0)
             :: ball :: rest)
       /\ Marker.id ball = 0.
Proof.
  split; [exact node_0_reachable |].
  destruct (marker_array_order sin_reduced node_0 1 2 3 node_0_reachable)
    as (self' & ball & rest & Hrun & _ & _ & (_ & Hid & _) & _).
  exists self', ball, rest. split; [exact Hrun | exact Hid].
Defined.

(** ** The first point of the trajectory *)

(** C10.  In every state of the session the trajectory holds the 201 points
    generated in the constructor with [max_points = 200]; the read of its
    first point in the branch of [generate_ref_ball] taken when [x == 0.0]
    is in bounds, and the turn of the timer returns without throwing. *)
Theorem first_point_in_bounds (sin : float -> float) (self : MarkerPublisher.t) :
  MarkerPublisher.reachable sin self ->
  let traj := MarkerPublisher.traj_marker_ self in
  MarkerPublisher.max_points = 200
  /\ List.length (Marker.points traj) = 201%nat
  /\ exists p0,
       vec_at (Marker.points traj) 0 = Ok p0
       /\ (forall now m x y z d,
             (x =? 0)%float = true ->
             exists ball,
               generate_ref_ball now m x y z d traj = Ok ball
               /\ Marker.position ball = p0)
       /\ (forall now_tcp now_ref now_text,
             exists self' markers,
               MarkerPublisher.marker_callback now_tcp now_ref now_text self
               = Ok (self', markers)).
Proof.
  intros Hreach traj.
  pose proof (reachable_session_state sin self Hreach) as Hself.
  destruct (session_state_first_point self Hself) as (p0 & ptl & Hfirst).
  destruct Hself as (Ho & Hb & (r0 & r1 & r2 & Hr) & Hlen & _).
  split; [reflexivity | split; [exact Hlen |]].
  exists p0. split; [unfold traj; rewrite Hfirst; reflexivity | split].
  - intros now m x y z d Hx.
    destruct (generate_ref_ball_run now m x y z d traj p0 ptl Hfirst)
      as (ball & Hball & _ & _ & _ & Hpos).
    exists ball. split; [exact Hball |]. now rewrite Hpos, Hx.
  - intros now_tcp now_ref now_text.
    destruct (marker_callback_run now_tcp now_ref now_text self _ _ _ _ _ _ _ _ _ _ _ _
                Hr Ho Hb Hfirst) as (ball & label & Hrun).
    do 2 eexists. apply Hrun.
Qed.

Lemma first_point_in_bounds_witness :
  MarkerPublisher.reachable sin_reduced node_0
  /\ List.length (Marker.points (MarkerPublisher.traj_marker_ node_0)) = 201%nat
  /\ exists p0, vec_at (Marker.points (MarkerPublisher.traj_marker_ node_0)) 0 = Ok p0.
Proof.
  split; [exact node_0_reachable |].
  destruct (first_point_in_bounds sin_reduced node_0 node_0_reachable)
    as (_ & Hlen & p0 & Hat & _).
  split; [exact Hlen | exists p0; exact Hat].
Defined.

(** ** A trajectory identifier outside the table *)

Lemma write_sine_parameters_default (n : MarkerPublisher.t) :
  ~ 0 <= MarkerPublisher.traj_id n <= 5 ->
  MarkerPublisher.write_sine_parameters n = n.
Proof.
  unfold MarkerPublisher.write_sine_parameters.
  destruct (MarkerPublisher.traj_id n) as [| q | q]; intros Hout; try lia; try reflexivity.
  do 3 (try (destruct q as [q | q |]; try lia; try reflexivity)).
Qed.

(** With the coefficients at 0 the argument of each sine is 0 at every one of
    the 201 values of the counter. *)
Lemma zero_arguments :
  Forall (fun count =>
            (0 * (double_of_int count / double_of_int 200 * 2 * M_PI + 0))%float = 0%float)
         (counts 0 201).
Proof.
  repeat (apply Forall_cons; [vm_compute; reflexivity |]). apply Forall_nil.
Qed.

Lemma flat_sample (sin : float -> float) (use_depth count : Z) :
  sin 0%float = 0%float ->
  (0 * (double_of_int count / double_of_int 200 * 2 * M_PI + 0))%float = 0%float ->
  Point.z (curve_sample sin 0.5059 0.0 0.4346 200 0 0 0 0 0 0.1 0.3 0.1 use_depth count)
  = 0.4346%float.
Proof.
  intros Hsin Harg. unfold curve_sample; cbn [Point.z].
  rewrite Harg, Hsin. reflexivity.
Qed.

(** C8.  For a [traj_id] outside 0..5 the switch writes nothing: the
    coefficients keep their initial value 0, the constructor returns, and every
    point of the trajectory has the third component of the origin as its
    third component.  The library sine is taken to send 0 to 0. *)
Theorem undefined_traj_id_flat_curve (sin : float -> float) (u p a i : Z) (now : Time) :
  sin 0%float = 0%float ->
  ~ 0 <= i <= 5 ->
  exists self,
    MarkerPublisher.new sin u p a i now = Ok self
    /\ MarkerPublisher.traj_id self = i
    /\ (MarkerPublisher.pa self = 0 /\ MarkerPublisher.pb self = 0
        /\ MarkerPublisher.pc self = 0)
    /\ (MarkerPublisher.ps self = 0%float /\ MarkerPublisher.ph self = 0%float)
    /\ List.length (Marker.points (MarkerPublisher.traj_marker_ self)) = 201%nat
    /\ exists origin_z,
         vec_at (MarkerPublisher.origin self) 2 = Ok origin_z
         /\ Forall (fun q => Point.z q = origin_z)
                   (Marker.points (MarkerPublisher.traj_marker_ self)).
Proof.
  intros Hsin Hout.
  destruct (new_run sin u p a i now) as (m & Hnew & Hpts & _).
  assert (Hbase : before_trajectory u p a i
                  = MarkerPublisher.set_params u p a i MarkerPublisher.members)
    by (apply write_sine_parameters_default; exact Hout).
  rewrite Hbase in Hnew, Hpts.
  eexists; split; [exact Hnew |].
  split; [reflexivity |]. split; [repeat split |]. split; [split; reflexivity |].
  cbn [MarkerPublisher.traj_marker_ MarkerPublisher.set_traj_marker_].
  split; [rewrite Hpts, length_map, counts_length; reflexivity |].
  exists 0.4346%float. split; [reflexivity |].
  rewrite Hpts. apply Forall_map.
  eapply Forall_impl; [| exact zero_arguments].
  intros count Harg. exact (flat_sample sin u count Hsin Harg).
Qed.

Lemma undefined_traj_id_flat_curve_witness :
  sin_reduced 0%float = 0%float
  /\ ~ 0 <= 6 <= 5
  /\ exists self,
       MarkerPublisher.new sin_reduced 1 0 0 6 0 = Ok self
       /\ MarkerPublisher.pa self = 0
       /\ exists origin_z,
            vec_at (MarkerPublisher.origin self) 2 = Ok origin_z
            /\ Forall (fun q => Point.z q = origin_z)
                      (Marker.points (MarkerPublisher.traj_marker_ self)).
Proof.
  split; [reflexivity |]. split; [lia |].
  destruct (undefined_traj_id_flat_curve sin_reduced 1 0 0 6 0)
    as (self & Hnew & _ & (Hpa & _) & _ & _ & origin_z & Hz & Hflat);
    [reflexivity | lia |].
  exists self. split; [exact Hnew |]. split; [exact Hpa |].
  exists origin_z. split; [exact Hz | exact Hflat].
Defined.

(** ** The theorems on the trajectory at the values of the session *)


Lemma trajectory_has_N_plus_1_points_witness :
  0 <= 200 < INT_MAX
  /\ exists m,
       generate_traj_marker sin_reduced [0.5059; 0.0; 0.4346]%float 200
         1 1 4 M_PI 0.25 0.1 0.3 0.1 1 0 Marker.default = Ok m
       /\ Z.of_nat (List.length (Marker.points m)) = 201.
Proof.
  split; [unfold INT_MAX; lia |].
  destruct (trajectory_has_N_plus_1_points sin_reduced 0.5059 0.0 0.4346 200
              1 1 4 M_PI 0.25 0.1 0.3 0.1 1 0) as ((m & Hrun & Hlen) & _);
    [lia | unfold INT_MAX; lia |].
  exists m. split; [exact Hrun | exact Hlen].
Defined.

(** * Further properties of the node *)

(** ** What the callbacks leave alone *)

Lemma bind_Ok {A B : Type} (r : result A) (k : A -> result B) (b : B) :
  bind r k = Ok b -> exists a, r = Ok a /\ k a = Ok b.
Proof.
  destruct r as [a | e |]; simpl; intros H; try discriminate.
  exists a; split; [reflexivity | exact H].
Qed.

Ltac inv_bind H :=
  let a := fresh "a" in
  let E := fresh "E" in
  apply bind_Ok in H; destruct H as (a & E & H).

(** A turn of the timer that returns has written the two markers of the node
    and nothing else. *)
Lemma marker_callback_writes (now_tcp now_ref now_text : Time)
    (self self' : MarkerPublisher.t) (markers : MarkerArray) :
  MarkerPublisher.marker_callback now_tcp now_ref now_text self = Ok (self', markers) ->
  exists ball,
    self' = MarkerPublisher.set_ref_marker_ ball
              (MarkerPublisher.set_tcp_marker_
                 (generate_tcp_marker now_tcp (MarkerPublisher.tcp_marker_ self)) self).
Proof.
  unfold MarkerPublisher.marker_callback. intros H.
  do 7 inv_bind H. injection H as <- _.
  eexists; reflexivity.
Qed.

Lemma ref_callback_writes (msg : PosInfo.t) (self self' : MarkerPublisher.t) :
  MarkerPublisher.ref_callback msg self = Ok self' ->
  exists v, self' = MarkerPublisher.set_ref_pos v self.
Proof.
  unfold MarkerPublisher.ref_callback. intros H.
  do 3 inv_bind H. injection H as <-.
  eexists; reflexivity.
Qed.

Lemma dispatch_constructed (e : MarkerPublisher.event) (self self' : MarkerPublisher.t)
    (out : list MarkerArray) :
  MarkerPublisher.dispatch e self = Ok (self', out) ->
  constructed self' = constructed self.
Proof.
  destruct e as [now_tcp now_ref now_text | msg | msg];
    cbn [MarkerPublisher.dispatch]; intros H.
  - inv_bind H. destruct a as [s ms]. injection H as <- _.
    apply marker_callback_writes in E. destruct E as (ball & ->). reflexivity.
  - inv_bind H. injection H as <- _.
    apply ref_callback_writes in E. destruct E as (v & ->). reflexivity.
  - injection H as <- _. unfold MarkerPublisher.count_callback.
    destruct (negb _); reflexivity.
Qed.

(** X1.  Whatever messages arrive, a run of the node that returns leaves
    what the constructor fixed as it was: the parameters, the origin, the
    centre of the bar, the coefficients, the bounds and the trajectory. *)
Theorem spin_keeps_constructed (es : list MarkerPublisher.event) :
  forall (self self' : MarkerPublisher.t) (out : list MarkerArray),
    MarkerPublisher.spin es self = Ok (self', out) ->
    constructed self' = constructed self.
Proof.
  induction es as [| e es IH]; intros self self' out H; cbn [MarkerPublisher.spin] in H.
  - injection H as <- _. reflexivity.
  - inv_bind H. destruct a as [s1 out1]. inv_bind H. destruct a as [s2 out2].
    injection H as <- _. cbn [fst] in *.
    rewrite (IH _ _ _ E0). exact (dispatch_constructed e self s1 out1 E).
Qed.

Lemma spin_keeps_constructed_witness :
  match MarkerPublisher.spin
          [MarkerPublisher.TcpPosition (PosInfo.mk 0.55 0.0 0.45);
           MarkerPublisher.Countdown (Float64.mk 2);
           MarkerPublisher.Timer 1 2 3] node_0 with
  | Ok (self', _) => constructed self' = constructed node_0
  | _ => False
  end.
Proof.
  destruct (MarkerPublisher.spin _ node_0) as [[self' out] | e |] eqn:E.
  - exact (spin_keeps_constructed _ _ _ _ E).
  - vm_compute in E. discriminate E.
  - vm_compute in E. discriminate E.
Defined.

(** ** A whole session *)

Lemma dispatch_run (e : MarkerPublisher.event) (self : MarkerPublisher.t) :
  session_state self ->
  exists self' out,
    MarkerPublisher.dispatch e self = Ok (self', out)
    /\ List.length out = timers [e]
    /\ Forall (fun markers => List.length markers = 3%nat \/ List.length markers = 4%nat) out.
Proof.
  intros Hself.
  destruct (session_state_first_point self Hself) as (p0 & ptl & Hfirst).
  destruct Hself as (Ho & Hb & (r0 & r1 & r2 & Hr) & _).
  destruct e as [now_tcp now_ref now_text | msg | msg]; cbn [MarkerPublisher.dispatch timers].
  - destruct (marker_callback_run now_tcp now_ref now_text self _ _ _ _ _ _ _ _ _ _ _ _
                Hr Ho Hb Hfirst) as (ball & label & _ & _ & _ & _ & _ & _ & Hrun).
    rewrite Hrun; cbn [bind fst snd].
    do 2 eexists; split; [reflexivity | split; [reflexivity |]].
    constructor; [| constructor].
    destruct (shows_countdown _); [right | left]; reflexivity.
  - rewrite (ref_callback_run msg self r0 r1 r2 Hr); cbn [bind].
    do 2 eexists; split; [reflexivity | split; [reflexivity | constructor]].
  - do 2 eexists; split; [reflexivity | split; [reflexivity | constructor]].
Qed.

Lemma spin_run (es : list MarkerPublisher.event) :
  forall self : MarkerPublisher.t,
    session_state self ->
    exists self' out,
      MarkerPublisher.spin es self = Ok (self', out)
      /\ session_state self'
      /\ List.length out = timers es
      /\ Forall (fun markers => List.length markers = 3%nat \/ List.length markers = 4%nat) out.
Proof.
  induction es as [| e es IH]; intros self Hself; cbn [MarkerPublisher.spin].
  - exists self, [].
    split; [reflexivity | split; [exact Hself | split; [reflexivity | constructor]]].
  - destruct (dispatch_run e self Hself) as (s1 & out1 & Hstep & Hlen1 & Hall1).
    pose proof (dispatch_session_state e self s1 out1 Hself Hstep) as Hs1.
    destruct (IH s1 Hs1) as (s2 & out2 & Hrest & Hs2 & Hlen2 & Hall2).
    rewrite Hstep; cbn [bind fst snd]. rewrite Hrest; cbn [bind fst snd].
    exists s2, (out1 ++ out2). split; [reflexivity | split; [exact Hs2 | split]].
    + rewrite length_app, Hlen1, Hlen2.
      destruct e; reflexivity.
    + apply Forall_app; split; assumption.
Qed.

Lemma main_of_parsed_runs (sin : float -> float) (u p a i : Z) (now : Time)
    (es : list MarkerPublisher.event) :
  exists self out,
    main sin u p a i now es = Ok (self, out)
    /\ List.length out = timers es
    /\ Forall (fun markers => List.length markers = 3%nat \/ List.length markers = 4%nat) out.
Proof.
  unfold main.
  destruct (new_run sin u p a i now) as (m & Hnew & _).
  pose proof (new_session_state sin u p a i now _ Hnew) as Hself.
  destruct (spin_run es _ Hself) as (self & out & Hrun & _ & Hlen & Hall).
  rewrite Hnew; cbn [bind]. exists self, out.
  split; [exact Hrun | split; [exact Hlen | exact Hall]].
Qed.

(** X2.  When each of the four parameters has a value that an [int] holds,
    the node is constructed and runs through whatever messages arrive
    without throwing; it publishes one array for each turn of the timer and
    none for the other messages, and every array holds three or four
    markers.  When one of the values is outside the range of [int], the
    constructor throws [std::out_of_range] and nothing is published. *)
Theorem main_runs (sin : float -> float) (v_use_depth v_part_id v_alpha_id v_traj_id : Z)
    (now : Time) (es : list MarkerPublisher.event) :
  if fits_int v_use_depth && fits_int v_part_id && fits_int v_alpha_id && fits_int v_traj_id
  then
    exists self out,
      main_from_parameters sin v_use_depth v_part_id v_alpha_id v_traj_id now es
      = Ok (self, out)
      /\ List.length out = timers es
      /\ Forall (fun markers => List.length markers = 3%nat \/ List.length markers = 4%nat)
                out
  else
    main_from_parameters sin v_use_depth v_part_id v_alpha_id v_traj_id now es
    = Throw out_of_range.
Proof.
  unfold main_from_parameters, MarkerPublisher.construct, stoi_of_integer.
  destruct (fits_int v_use_depth); [| reflexivity].
  destruct (fits_int v_part_id); [| reflexivity].
  destruct (fits_int v_alpha_id); [| reflexivity].
  destruct (fits_int v_traj_id); [| reflexivity].
  cbn [andb bind].
  exact (main_of_parsed_runs sin v_use_depth v_part_id v_alpha_id v_traj_id now es).
Qed.

(** ** The countdown and the elapsed time *)

Lemma new_countdown_consistent (sin : float -> float) (u p a i : Z) (now : Time)
    (self : MarkerPublisher.t) :
  MarkerPublisher.new sin u p a i now = Ok self -> countdown_consistent self.
Proof.
  intros Hnew.
  destruct (new_run sin u p a i now) as (m & Hrun & _).
  rewrite Hrun in Hnew. injection Hnew as <-.
  unfold countdown_consistent, before_trajectory, MarkerPublisher.write_sine_parameters.
  repeat match goal with
         | |- context [match ?v with _ => _ end] => destruct v
         end; cbn; (split; [reflexivity | split; [reflexivity |]]);
    intros Hz; now contradiction Hz.
Qed.

Lemma dispatch_countdown_consistent (e : MarkerPublisher.event)
    (self self' : MarkerPublisher.t) (out : list MarkerArray) :
  MarkerPublisher.event_in_range e = true ->
  MarkerPublisher.dispatch e self = Ok (self', out) ->
  countdown_consistent self -> countdown_consistent self'.
Proof.
  intros Hrange Hstep Hself.
  destruct e as [now_tcp now_ref now_text | msg | msg];
    cbn [MarkerPublisher.dispatch] in Hstep.
  - inv_bind Hstep. destruct a as [s ms]. injection Hstep as <- _.
    apply marker_callback_writes in E. destruct E as (ball & ->). exact Hself.
  - inv_bind Hstep. injection Hstep as <- _.
    apply ref_callback_writes in E. destruct E as (v & ->). exact Hself.
  - injection Hstep as <- _.
    cbn [MarkerPublisher.event_in_range] in Hrange.
    unfold MarkerPublisher.elapsed_time_in_range, cast_defined in Hrange.
    apply andb_true_iff in Hrange. destruct Hrange as (Hcast & Hsub).
    apply andb_true_iff in Hcast. destruct Hcast as (_ & He).
    destruct Hself as (_ & Hcount & _).
    unfold countdown_consistent, MarkerPublisher.count_callback.
    cbn [MarkerPublisher.controller_seconds MarkerPublisher.set_controller_seconds].
    destruct (Z.eqb_spec (int_of_double (Float64.data msg)) 0) as [Hz | Hnz];
      cbn [negb MarkerPublisher.countdown_count MarkerPublisher.controller_seconds
           MarkerPublisher.set_countdown_count MarkerPublisher.set_controller_seconds].
    + split; [exact He | split; [exact Hcount | intros Hc; contradiction]].
    + split; [exact He | split; [exact Hsub | intros _]].
      unfold MarkerPublisher.max_smoothing_time. lia.
Qed.

Lemma spin_countdown_consistent (es : list MarkerPublisher.event) :
  forall (self self' : MarkerPublisher.t) (out : list MarkerArray),
    forallb MarkerPublisher.event_in_range es = true ->
    MarkerPublisher.spin es self = Ok (self', out) ->
    countdown_consistent self -> countdown_consistent self'.
Proof.
  induction es as [| e es IH]; intros self self' out Hrange H Hself;
    cbn [MarkerPublisher.spin] in H.
  - injection H as <- _. exact Hself.
  - cbn [forallb] in Hrange. apply andb_true_iff in Hrange. destruct Hrange as (He & Hes).
    inv_bind H. destruct a as [s1 out1]. inv_bind H. destruct a as [s2 out2].
    injection H as <- _. cbn [fst] in *.
    apply (IH s1 s2 out2 Hes E0).
    exact (dispatch_countdown_consistent e self s1 out1 He E Hself).
Qed.

(** X3.  In a session whose messages on [countdown] all carry an elapsed time
    that [int] arithmetic handles, the recorded elapsed time
    [controller_seconds] and the countdown are [int]s at every moment, and
    whenever the elapsed time is not 0 the two add up to
    [max_smoothing_time]. *)
Theorem countdown_tracks_elapsed_time (sin : float -> float) (u p a i : Z) (now : Time)
    (es : list MarkerPublisher.event) (self : MarkerPublisher.t) (out : list MarkerArray) :
  main sin u p a i now es = Ok (self, out) ->
  forallb MarkerPublisher.event_in_range es = true ->
  fits_int (MarkerPublisher.controller_seconds self) = true
  /\ fits_int (MarkerPublisher.countdown_count self) = true
  /\ (MarkerPublisher.controller_seconds self <> 0 ->
      MarkerPublisher.countdown_count self + MarkerPublisher.controller_seconds self
      = MarkerPublisher.max_smoothing_time).
Proof.
  unfold main. intros Hrun Hrange.
  apply bind_Ok in Hrun. destruct Hrun as (self0 & Hnew & Hrun).
  apply (spin_countdown_consistent es self0 self out Hrange Hrun).
  exact (new_countdown_consistent sin u p a i now self0 Hnew).
Qed.

Lemma countdown_tracks_elapsed_time_witness :
  match main sin_reduced 0 0 0 0 0
          [MarkerPublisher.Countdown (Float64.mk 3.2); MarkerPublisher.Timer 1 2 3;
           MarkerPublisher.TcpPosition (PosInfo.mk 0.55 0.0 0.45)] with
  | Ok (self, _) =>
      MarkerPublisher.controller_seconds self = 3
      /\ MarkerPublisher.countdown_count self + MarkerPublisher.controller_seconds self = 5
  | _ => False
  end.
Proof.
  destruct (main sin_reduced 0 0 0 0 0 _) as [[self out] | e |] eqn:E.
  - destruct (countdown_tracks_elapsed_time sin_reduced 0 0 0 0 0 _ self out E eq_refl)
      as (_ & _ & Hsum).
    vm_compute in E. injection E as <- _.
    split; [reflexivity |]. apply Hsum. vm_compute. discriminate.
  - vm_compute in E. discriminate E.
  - vm_compute in E. discriminate E.
Defined.

(** ** The position of the reference *)

Lemma ref_callback_cases (msg : PosInfo.t) (self : MarkerPublisher.t) :
  MarkerPublisher.ref_callback msg self
  = match MarkerPublisher.ref_pos self with
    | _ :: _ :: _ :: rest =>
        Ok (MarkerPublisher.set_ref_pos
              (PosInfo.ref_position_0 msg :: PosInfo.ref_position_1 msg
               :: PosInfo.ref_position_2 msg :: rest) self)
    | _ => Throw out_of_range
    end.
Proof.
  unfold MarkerPublisher.ref_callback.
  destruct (MarkerPublisher.ref_pos self) as [| r0 [| r1 [| r2 rest]]]; reflexivity.
Qed.

(** X4.  A position message overwrites the three components of the reference
    position and keeps nothing of the earlier ones: two messages in a row
    leave the node as the second one alone does, in every state (also when
    the vector is too short and both throw). *)
Theorem ref_callback_last_wins (msg1 msg2 : PosInfo.t) (self : MarkerPublisher.t) :
  (self1 <- MarkerPublisher.ref_callback msg1 self ;; MarkerPublisher.ref_callback msg2 self1)
  = MarkerPublisher.ref_callback msg2 self.
Proof.
  rewrite (ref_callback_cases msg1 self), (ref_callback_cases msg2 self).
  destruct (MarkerPublisher.ref_pos self) as [| r0 [| r1 [| r2 rest]]]; cbn [bind];
    reflexivity.
Qed.

(** ** When the functions throw *)


(** X6.  [generate_countdown] returns a marker exactly when the centre has
    at least three components, whatever the count; otherwise it throws
    [std::out_of_range]. *)
Theorem generate_countdown_returns_iff (now : Time) (count : Z) (center : list float) :
  ((exists label, generate_countdown now count center = Ok label)
   <-> (3 <= List.length center)%nat)
  /\ (generate_countdown now count center = Throw out_of_range
      <-> (List.length center < 3)%nat).
Proof.
  unfold generate_countdown.
  destruct center as [| c0 [| c1 [| c2 crest]]]; cbn [vec_at nth_error bind List.length];
    (split; split;
     [ try (intros [label H]; discriminate H); try (intros _; lia)
     | try (intros H; exfalso; lia); try (intros _; eexists; reflexivity)
     | try (intros H; discriminate H); try (intros _; lia)
     | try (intros H; exfalso; lia); try (intros _; reflexivity) ]).
Qed.

(** X7.  With a negative [max_points] the loop of [generate_traj_marker] is
    not entered: the function returns, adds no point and does not read the
    origin, which may even be empty. *)
Theorem generate_traj_marker_negative (sin : float -> float) (origin : list float)
    (max_points : Z) (pa pb pc ps ph height width depth : float) (use_depth : Z)
    (now : Time) (m : Marker.t) :
  max_points < 0 ->
  exists m',
    generate_traj_marker sin origin max_points pa pb pc ps ph height width depth
      use_depth now m = Ok m'
    /\ Marker.points m' = Marker.points m
    /\ Marker.id m' = 2.
Proof.
  intros Hneg. unfold generate_traj_marker. cbn [traj_loop].
  destruct (Z.leb_spec 0 max_points) as [Hle | _]; [lia |].
  eexists; split; [reflexivity |]. destruct m; split; reflexivity.
Qed.

Lemma generate_traj_marker_negative_witness :
  exists m',
    generate_traj_marker sin_reduced [] (-1) 1 1 4 M_PI 0.25 0.1 0.3 0.1 0 0 Marker.default
    = Ok m'
    /\ Marker.points m' = [].
Proof.
  destruct (generate_traj_marker_negative sin_reduced [] (-1) 1 1 4 M_PI 0.25 0.1 0.3 0.1
              0 0 Marker.default) as (m' & Hrun & Hpts & _); [lia |].
  exists m'. split; [exact Hrun | exact Hpts].
Defined.

(** X8.  With [max_points] at least 0 and an origin of fewer than three
    components, [generate_traj_marker] throws [std::out_of_range] in the first
    turn of its loop. *)
Theorem generate_traj_marker_short_origin (sin : float -> float) (origin : list float)
    (max_points : Z) (pa pb pc ps ph height width depth : float) (use_depth : Z)
    (now : Time) (m : Marker.t) :
  0 <= max_points ->
  (List.length origin < 3)%nat ->
  generate_traj_marker sin origin max_points pa pb pc ps ph height width depth
    use_depth now m = Throw out_of_range.
Proof.
  intros Hmax Hlen. unfold generate_traj_marker. cbn [traj_loop].
  destruct (Z.leb_spec 0 max_points) as [_ | Hlt]; [| lia].
  unfold traj_point.
  destruct origin as [| o0 [| o1 [| o2 orest]]]; cbn [vec_at nth_error bind];
    try reflexivity.
  cbn [List.length] in Hlen. lia.
Qed.

Lemma generate_traj_marker_short_origin_witness :
  generate_traj_marker sin_reduced [0.5059; 0.0]%float 200 1 1 4 M_PI 0.25 0.1 0.3 0.1
    0 0 Marker.default = Throw out_of_range.
Proof.
  apply (generate_traj_marker_short_origin sin_reduced [0.5059; 0.0]%float 200);
    [lia | cbn; lia].
Defined.

(** ** The trajectory marker is extended, not rebuilt *)



(** ** The countdown text outside the table *)

(** X10.  For a count that is none of 0, 1, 2, 3, 4, 5 and -10, the text made
    by [generate_countdown] is the decimal number and its three colour
    channels are 0: the text is black, with alpha 1. *)
Theorem generate_countdown_other_counts (now : Time) (count : Z) (c0 c1 c2 : float) :
  ~ 0 <= count <= 5 ->
  count <> -10 ->
  label_of (generate_countdown now count [c0; c1; c2])
  = Ok (to_string count, ColorRGBA.mk 0 0 0 1, Point.mk c0 c1 (c2 + 0.05)%float).
Proof.
  intros Hout Hstop.
  assert (H0 : (count =? 0) = false) by (apply Z.eqb_neq; lia).
  assert (H10 : (count =? -10) = false) by (apply Z.eqb_neq; exact Hstop).
  unfold generate_countdown, label_of; cbn [vec_at nth_error bind].
  rewrite H0, H10.
  destruct count as [| q | q]; [lia | | reflexivity].
  do 3 (try (destruct q as [q | q |]; try lia; try reflexivity)).
Qed.

Lemma generate_countdown_other_counts_witness :
  label_of (generate_countdown 0 6 [0.3; 0.0; 0.05]%float)
  = Ok ("6"%string, ColorRGBA.mk 0 0 0 1, Point.mk 0.3 0.0 0.1)
  /\ label_of (generate_countdown 0 (-3) [0.3; 0.0; 0.05]%float)
     = Ok ("-3"%string, ColorRGBA.mk 0 0 0 1, Point.mk 0.3 0.0 0.1).
Proof.
  split.
  - apply (generate_countdown_other_counts 0 6 0.3 0.0 0.05); lia.
  - apply (generate_countdown_other_counts 0 (-3) 0.3 0.0 0.05); lia.
Defined.

(** ** The markers the node keeps between two turns *)

Lemma generate_tcp_marker_from_default (now : Time) (m : Marker.t) :
  tcp_unwritten_default m ->
  generate_tcp_marker now m = generate_tcp_marker now Marker.default.
Proof.
  destruct m as [f s n i t a pos sc [r g b al] pts tx].
  intros (H1 & H2 & H3 & H4). cbn in H1, H2, H3, H4. subst. reflexivity.
Qed.

Lemma generate_ref_ball_from_default (now : Time) (m : Marker.t) (x y z d : float)
    (traj : Marker.t) :
  ref_unwritten_default m ->
  generate_ref_ball now m x y z d traj = generate_ref_ball now Marker.default x y z d traj.
Proof.
  destruct m as [f s n i t a pos sc [r g b al] pts tx].
  intros (H1 & H2 & H3 & H4). cbn in H1, H2, H3, H4. subst. reflexivity.
Qed.

Lemma generate_ref_ball_unwritten (now : Time) (m ball : Marker.t) (x y z d : float)
    (traj : Marker.t) :
  ref_unwritten_default m ->
  generate_ref_ball now m x y z d traj = Ok ball ->
  ref_unwritten_default ball.
Proof.
  intros Hm. rewrite (generate_ref_ball_from_default now m x y z d traj Hm).
  unfold generate_ref_ball.
  destruct (x =? 0)%float; [destruct (Marker.points traj) as [| p0 ptl] |];
    cbn [vec_at nth_error bind]; intros H; try discriminate H;
    injection H as <-; repeat split.
Qed.

(** A turn of the timer that returns: the ball it stores was made by
    [generate_ref_ball] from the ball of the turn before. *)
Lemma marker_callback_ball (now_tcp now_ref now_text : Time)
    (self self' : MarkerPublisher.t) (markers : MarkerArray) :
  MarkerPublisher.marker_callback now_tcp now_ref now_text self = Ok (self', markers) ->
  exists x y z d,
    generate_ref_ball now_ref (MarkerPublisher.ref_marker_ self) x y z d
      (MarkerPublisher.traj_marker_ self) = Ok (MarkerPublisher.ref_marker_ self')
    /\ MarkerPublisher.tcp_marker_ self'
       = generate_tcp_marker now_tcp (MarkerPublisher.tcp_marker_ self).
Proof.
  unfold MarkerPublisher.marker_callback. intros H.
  do 7 inv_bind H. injection H as <- _.
  do 4 eexists. split; [exact E4 | reflexivity].
Qed.

Lemma reachable_unwritten (sin : float -> float) (self : MarkerPublisher.t) :
  MarkerPublisher.reachable sin self ->
  tcp_unwritten_default (MarkerPublisher.tcp_marker_ self)
  /\ ref_unwritten_default (MarkerPublisher.ref_marker_ self).
Proof.
  induction 1 as [u p a i now self Hnew | e self self' out _ [IHtcp IHref] Hstep].
  - destruct (new_run sin u p a i now) as (m & Hrun & _).
    rewrite Hrun in Hnew. injection Hnew as <-.
    unfold before_trajectory, MarkerPublisher.write_sine_parameters.
    repeat match goal with
           | |- context [match ?v with _ => _ end] => destruct v
           end; split; repeat split.
  - destruct e as [now_tcp now_ref now_text | msg | msg];
      cbn [MarkerPublisher.dispatch] in Hstep.
    + inv_bind Hstep. destruct a as [s ms]. injection Hstep as <- _.
      apply marker_callback_ball in E. destruct E as (x & y & z & d & Hball & Htcp).
      split.
      * rewrite Htcp, (generate_tcp_marker_from_default now_tcp _ IHtcp). repeat split.
      * exact (generate_ref_ball_unwritten now_ref _ _ x y z d _ IHref Hball).
    + inv_bind Hstep. injection Hstep as <- _.
      apply ref_callback_writes in E. destruct E as (v & ->). split; assumption.
    + injection Hstep as <- _. unfold MarkerPublisher.count_callback.
      destruct (negb _); split; assumption.
Qed.

(** X11.  In every state of the session the array a turn of the timer
    publishes is a function of the trajectory, the reference position, the
    countdown and the three clock readings: the tool marker and the ball are
    those made from a default marker, so nothing of the markers of earlier
    turns shows. *)
Theorem marker_callback_forgets_earlier_turns (sin : float -> float)
    (self : MarkerPublisher.t) (now_tcp now_ref now_text : Time) :
  MarkerPublisher.reachable sin self ->
  let traj := MarkerPublisher.traj_marker_ self in
  let count := MarkerPublisher.countdown_count self in
  exists r0 r1 r2 ball label self',
    MarkerPublisher.ref_pos self = [r0; r1; r2]
    /\ generate_ref_ball now_ref Marker.default r0 r1 r2 (ball_distance r0 0.5059) traj
       = Ok ball
    /\ generate_countdown now_text count [0.3; 0.0; 0.05]%float = Ok label
    /\ MarkerPublisher.marker_callback now_tcp now_ref now_text self
       = Ok (self',
             [traj; generate_tcp_marker now_tcp Marker.default; ball]
             ++ (if (0 <=? count) || (count =? -10) then [label] else [])).
Proof.
  intros Hreach traj count.
  pose proof (reachable_session_state sin self Hreach) as Hself.
  destruct (reachable_unwritten sin self Hreach) as (Htcp & Href).
  destruct (session_state_first_point self Hself) as (p0 & ptl & Hfirst).
  destruct Hself as (Ho & Hb & (r0 & r1 & r2 & Hr) & _).
  destruct (marker_callback_run now_tcp now_ref now_text self _ _ _ _ _ _ _ _ _ _ _ _
              Hr Ho Hb Hfirst) as (ball & label & Hball & _ & _ & _ & Hlabel & _ & Hrun).
  exists r0, r1, r2, ball, label. eexists.
  split; [exact Hr |]. split.
  - rewrite <- (generate_ref_ball_from_default now_ref _ r0 r1 r2 _ traj Href). exact Hball.
  - split; [rewrite <- Hb; exact Hlabel |].
    rewrite Hrun, (generate_tcp_marker_from_default now_tcp _ Htcp). reflexivity.
Qed.

Lemma marker_callback_forgets_earlier_turns_witness :
  MarkerPublisher.reachable sin_reduced node_0
  /\ exists ball label self',
       generate_ref_ball 2 Marker.default 0 0 0 0.1 (MarkerPublisher.traj_marker_ node_0)
       = Ok ball
       /\ generate_countdown 3 5 [0.3; 0.0; 0.05]%float = Ok label
       /\ MarkerPublisher.marker_callback 1 2 3 node_0
          = Ok (self',
                [MarkerPublisher.traj_marker_ node_0;
                 generate_tcp_marker 1 Marker.default; ball; label]).
Proof.
  split; [exact node_0_reachable |].
  destruct (marker_callback_forgets_earlier_turns sin_reduced node_0 1 2 3 node_0_reachable)
    as (r0 & r1 & r2 & ball & label & self' & Hr & Hball & Hlabel & Hrun).
  injection Hr as <- <- <-.
  exists ball, label, self'. split; [exact Hball | split; [exact Hlabel | exact Hrun]].
Defined.

(** ** The countdown text after an elapsed time *)

Lemma timer_has_text (now_tcp now_ref now_text : Time) (self : MarkerPublisher.t) :
  session_state self ->
  exists self' markers,
    MarkerPublisher.marker_callback now_tcp now_ref now_text self = Ok (self', markers)
    /\ has_text markers = shows_countdown (MarkerPublisher.countdown_count self).
Proof.
  intros Hself.
  destruct (session_state_first_point self Hself) as (p0 & ptl & Hfirst).
  destruct Hself as (Ho & Hb & (r0 & r1 & r2 & Hr) & _ & _ & Htype).
  destruct (marker_callback_run now_tcp now_ref now_text self _ _ _ _ _ _ _ _ _ _ _ _
              Hr Ho Hb Hfirst)
    as (ball & label & _ & (_ & Hbtype) & _ & _ & _ & (_ & Hltype) & Hrun).
  do 2 eexists. split; [exact Hrun |].
  unfold has_text.
  destruct (shows_countdown _); cbn [app existsb];
    rewrite Htype, Hbtype, ?Hltype; reflexivity.
Qed.

(** X12.  In every state of the session, after a message on [countdown] whose
    elapsed time [int] arithmetic handles and whose integer value [e] is not
    0, the next turn of the timer shows the countdown text exactly when [e] is
    at most 5 or is 15: the text disappears from the sixth second on and
    comes back as "Stop!" during the fifteenth. *)
Theorem countdown_then_timer (sin : float -> float) (self : MarkerPublisher.t)
    (msg : Float64.t) (now_tcp now_ref now_text : Time) :
  MarkerPublisher.reachable sin self ->
  let e := int_of_double (Float64.data msg) in
  MarkerPublisher.elapsed_time_in_range (Float64.data msg) = true ->
  e <> 0 ->
  exists self' markers,
    MarkerPublisher.spin
      [MarkerPublisher.Countdown msg; MarkerPublisher.Timer now_tcp now_ref now_text] self
    = Ok (self', [markers])
    /\ has_text markers = (e <=? 5) || (e =? 15).
Proof.
  intros Hreach e _ He.
  pose proof (reachable_session_state sin self Hreach) as Hself.
  assert (Hself1 : session_state (MarkerPublisher.count_callback msg self)).
  { apply (dispatch_session_state (MarkerPublisher.Countdown msg) self _ [] Hself).
    reflexivity. }
  destruct (timer_has_text now_tcp now_ref now_text _ Hself1)
    as (self' & markers & Hrun & Htext).
  exists self', markers.
  cbn [MarkerPublisher.spin MarkerPublisher.dispatch bind fst snd].
  rewrite Hrun. cbn [bind fst snd app]. split; [reflexivity |].
  rewrite Htext. unfold MarkerPublisher.count_callback.
  cbn [MarkerPublisher.controller_seconds MarkerPublisher.set_controller_seconds].
  fold e. destruct (Z.eqb_spec e 0) as [Hz | _]; [contradiction |].
  cbn [negb MarkerPublisher.countdown_count MarkerPublisher.set_countdown_count].
  unfold shows_countdown, MarkerPublisher.max_smoothing_time.
  destruct (Z.leb_spec 0 (5 - e)), (Z.leb_spec e 5),
    (Z.eqb_spec (5 - e) (-10)), (Z.eqb_spec e 15); try lia; reflexivity.
Qed.

Lemma countdown_then_timer_witness :
  MarkerPublisher.reachable sin_reduced node_0
  /\ MarkerPublisher.elapsed_time_in_range 15.5 = true
  /\ int_of_double 15.5 = 15
  /\ exists self' markers,
       MarkerPublisher.spin
         [MarkerPublisher.Countdown (Float64.mk 15.5); MarkerPublisher.Timer 1 2 3] node_0
       = Ok (self', [markers])
       /\ has_text markers = true.
Proof.
  split; [exact node_0_reachable | split; [reflexivity | split; [reflexivity |]]].
  destruct (countdown_then_timer sin_reduced node_0 (Float64.mk 15.5) 1 2 3
              node_0_reachable) as (self' & markers & Hrun & Htext);
    [reflexivity | vm_compute; discriminate |].
  exists self', markers. split; [exact Hrun | exact Htext].
Defined.

(** ** The coefficients of the curve *)

(** X13.  Whatever [traj_id] is, the constructor returns and leaves integer
    coefficients with [0 <= pa <= pb <= pc <= 5] and an amplitude factor [ph]
    that is 0, 0.2 or 0.25; the coefficients are all 0 exactly when [traj_id]
    is outside 0..5. *)
Theorem coefficients_bounded (sin : float -> float) (u p a i : Z) (now : Time) :
  exists self,
    MarkerPublisher.new sin u p a i now = Ok self
    /\ MarkerPublisher.traj_id self = i
    /\ 0 <= MarkerPublisher.pa self <= MarkerPublisher.pb self
    /\ MarkerPublisher.pb self <= MarkerPublisher.pc self <= 5
    /\ (MarkerPublisher.ph self = 0%float \/ MarkerPublisher.ph self = 0.2%float
        \/ MarkerPublisher.ph self = 0.25%float)
    /\ (MarkerPublisher.pc self = 0 <-> ~ 0 <= i <= 5).
Proof.
  destruct (new_run sin u p a i now) as (m & Hnew & _).
  eexists; split; [exact Hnew |].
  unfold before_trajectory, MarkerPublisher.write_sine_parameters.
  cbn [MarkerPublisher.traj_id MarkerPublisher.set_params].
  destruct i as [| q | q];
    [ | do 3 (try destruct q as [q | q |]) | ];
    cbn; (split; [reflexivity |]); (split; [lia |]); (split; [lia |]);
    (split; [auto |]); split; intros H; try lia; try discriminate H.
Qed.

(** ** The shape of the trajectory of the session *)

Lemma new_points (sin : float -> float) (u p a i : Z) (now : Time) :
  exists self n,
    MarkerPublisher.new sin u p a i now = Ok self
    /\ MarkerPublisher.use_depth n = u
    /\ Marker.points (MarkerPublisher.traj_marker_ self)
       = map (session_sample sin n) (counts 0 201).
Proof.
  destruct (new_run sin u p a i now) as (m & Hnew & Hpts & _).
  destruct (write_sine_parameters_frame
              (MarkerPublisher.set_params u p a i MarkerPublisher.members))
    as (_ & _ & _ & _ & Hu & _).
  do 2 eexists. split; [exact Hnew | split; [exact Hu | exact Hpts]].
Qed.

(** X14.  Without the depth ([use_depth = 0]) the trajectory of the node is
    planar: whatever the trajectory identifier and the sine, each of its
    points has the first component of the origin, 0.5059, as its first
    component. *)
Theorem trajectory_planar_without_depth (sin : float -> float) (p a i : Z) (now : Time) :
  exists self,
    MarkerPublisher.new sin 0 p a i now = Ok self
    /\ vec_at (MarkerPublisher.origin self) 0 = Ok 0.5059%float
    /\ Forall (fun q => Point.x q = 0.5059%float)
              (Marker.points (MarkerPublisher.traj_marker_ self)).
Proof.
  destruct (new_points sin 0 p a i now) as (self & n & Hnew & Hu & Hpts).
  exists self. split; [exact Hnew |]. split.
  - pose proof (new_session_state sin 0 p a i now self Hnew) as (Ho & _).
    rewrite Ho. reflexivity.
  - rewrite Hpts. apply Forall_map, Forall_forall. intros count _.
    unfold session_sample, curve_sample; cbn [Point.x]. rewrite Hu. reflexivity.
Qed.

(** X15.  Whatever the parameters and the sine, the second components of the
    201 points of the trajectory increase strictly from -0.15 at the first
    point through 0 at the point 100 to 0.15 at the last one: the sweep over
    the width 0.3, centred on the origin. *)
Theorem trajectory_sweeps_width (sin : float -> float) (u p a i : Z) (now : Time) :
  exists self,
    MarkerPublisher.new sin u p a i now = Ok self
    /\ let ys := map Point.y (Marker.points (MarkerPublisher.traj_marker_ self)) in
       increasing ys = true
       /\ nth_error ys 0 = Some (-0.15)%float
       /\ nth_error ys 100 = Some 0%float
       /\ nth_error ys 200 = Some 0.15%float.
Proof.
  destruct (new_points sin u p a i now) as (self & n & Hnew & _ & Hpts).
  exists self. split; [exact Hnew |].
  rewrite Hpts, map_map.
  change (map (fun count => Point.y (session_sample sin n count)) (counts 0 201))
    with (map (fun count =>
                 (double_of_int count / double_of_int 200 * 2 * M_PI / (2 * M_PI) * 0.3
                  - 0.3 / 2 + 0.0)%float)
              (counts 0 201)).
  cbv zeta. repeat split; vm_compute; reflexivity.
Qed.

(** X16.  With the depth ([use_depth] not 0) the first components of the
    points stay within half the depth 0.1 of the origin, between
    [-0.05 + 0.5059] and [0.05 + 0.5059]; the two ends of the trajectory are at
    the upper bound and the point 100 is at the lower one. *)
Theorem trajectory_depth_profile (sin : float -> float) (u p a i : Z) (now : Time) :
  u <> 0 ->
  exists self,
    MarkerPublisher.new sin u p a i now = Ok self
    /\ let xs := map Point.x (Marker.points (MarkerPublisher.traj_marker_ self)) in
       forallb (fun x => (-0.05 + 0.5059 <=? x)%float && (x <=? 0.05 + 0.5059)%float) xs = true
       /\ nth_error xs 0 = Some (0.05 + 0.5059)%float
       /\ nth_error xs 100 = Some (-0.05 + 0.5059)%float
       /\ nth_error xs 200 = Some (0.05 + 0.5059)%float.
Proof.
  intros Hu0.
  destruct (new_points sin u p a i now) as (self & n & Hnew & Hu & Hpts).
  exists self. split; [exact Hnew |].
  rewrite Hpts, map_map.
  rewrite (map_ext _ (fun count =>
             (abs (double_of_int count / double_of_int 200 * 2 * M_PI - M_PI) / M_PI * 0.1
              - 0.1 / 2 + 0.5059)%float)).
  - cbv zeta. repeat split; vm_compute; reflexivity.
  - intros count. unfold session_sample, curve_sample; cbn [Point.x].
    rewrite Hu. destruct (Z.eqb_spec u 0) as [Hz | _]; [contradiction | reflexivity].
Qed.

Lemma trajectory_depth_profile_witness :
  exists self,
    MarkerPublisher.new sin_reduced 1 0 0 0 0 = Ok self
    /\ nth_error (map Point.x (Marker.points (MarkerPublisher.traj_marker_ self))) 100
       = Some 0.4559%float.
Proof.
  destruct (trajectory_depth_profile sin_reduced 1 0 0 0 0) as (self & Hnew & _ & _ & Hmid & _);
    [lia |].
  exists self. split; [exact Hnew | exact Hmid].
Defined.

(** ** The look of the published markers *)

Lemma generate_traj_marker_look (sin : float -> float) (o0 o1 o2 : float)
    (orest : list float) (max_points : Z)
    (pa pb pc ps ph height width depth : float) (use_depth : Z)
    (now : Time) (m m' : Marker.t) :
  generate_traj_marker sin (o0 :: o1 :: o2 :: orest) max_points pa pb pc ps ph
    height width depth use_depth now m = Ok m' ->
  Marker.color m'
  = ColorRGBA.mk (ColorRGBA.r (Marker.color m)) (ColorRGBA.g (Marker.color m))
      1 ColorRGBA.alpha_0_2
  /\ Vector3.x (Marker.scale m') = 0.015%float
  /\ Marker.frame_id m' = "/panda_link0"%string.
Proof.
  unfold generate_traj_marker.
  rewrite (traj_loop_run sin o0 o1 o2 orest max_points pa pb pc ps ph height width depth
             use_depth (Z.to_nat (max_points + 1))) by (f_equal; lia || lia).
  intros H. injection H as <-. destruct m; repeat split.
Qed.

Lemma new_traj_marker_look (sin : float -> float) (u p a i : Z) (now : Time)
    (self : MarkerPublisher.t) :
  MarkerPublisher.new sin u p a i now = Ok self ->
  Marker.color (MarkerPublisher.traj_marker_ self) = ColorRGBA.mk 0 0 1 ColorRGBA.alpha_0_2
  /\ Vector3.x (Marker.scale (MarkerPublisher.traj_marker_ self)) = 0.015%float
  /\ Marker.frame_id (MarkerPublisher.traj_marker_ self) = "/panda_link0"%string.
Proof.
  unfold MarkerPublisher.new. intros H. inv_bind H. injection H as <-.
  destruct (write_sine_parameters_frame
              (MarkerPublisher.set_params u p a i MarkerPublisher.members))
    as (Ho & _ & _ & _ & _ & _ & _ & _ & Hm).
  cbv zeta in E. rewrite Ho, Hm in E.
  cbn [MarkerPublisher.origin MarkerPublisher.traj_marker_
       MarkerPublisher.set_params MarkerPublisher.members] in E.
  apply generate_traj_marker_look in E.
  cbn [MarkerPublisher.traj_marker_ MarkerPublisher.set_traj_marker_]. exact E.
Qed.

Lemma reachable_from_new (sin : float -> float) (self : MarkerPublisher.t) :
  MarkerPublisher.reachable sin self ->
  exists u p a i now self0,
    MarkerPublisher.new sin u p a i now = Ok self0
    /\ constructed self = constructed self0.
Proof.
  induction 1 as [u p a i now self Hnew
                 | e self self' out _ (u & p & a & i & now & self0 & Hnew & IH) Hstep].
  - exists u, p, a, i, now, self. split; [exact Hnew | reflexivity].
  - exists u, p, a, i, now, self0. split; [exact Hnew |].
    rewrite (dispatch_constructed e self self' out Hstep). exact IH.
Qed.

Lemma generate_ref_ball_look (now : Time) (ball : Marker.t) (x y z d : float)
    (traj : Marker.t) :
  generate_ref_ball now Marker.default x y z d traj = Ok ball ->
  Marker.color ball = ColorRGBA.mk 0 1 0 ColorRGBA.alpha_0_35
  /\ Marker.frame_id ball = "/panda_link0"%string.
Proof.
  unfold generate_ref_ball.
  destruct (x =? 0)%float; [destruct (Marker.points traj) as [| p0 ptl] |];
    cbn [vec_at nth_error bind]; intros H; try discriminate H;
    injection H as <-; split; reflexivity.
Qed.

(** X17.  In every state of the session a turn of the timer publishes a blue
    line strip of width 0.015 with alpha 0.2 for the trajectory, an opaque red
    sphere of diameter 0.015 at the origin of the frame [/panda_hand_tcp] for
    the tool, and a green sphere with alpha 0.35 in the frame [/panda_link0]
    for the reference; the alphas are the binary32 roundings of 0.2 and
    0.35. *)
Theorem published_markers_look (sin : float -> float) (self : MarkerPublisher.t)
    (now_tcp now_ref now_text : Time) :
  MarkerPublisher.reachable sin self ->
  exists self' traj tcp ball rest,
    MarkerPublisher.marker_callback now_tcp now_ref now_text self
    = Ok (self', traj :: tcp :: ball :: rest)
    /\ (Marker.color traj = ColorRGBA.mk 0 0 1 0x1.99999ap-3
        /\ Vector3.x (Marker.scale traj) = 0.015%float
        /\ Marker.frame_id traj = "/panda_link0"%string)
    /\ (Marker.color tcp = ColorRGBA.mk 1 0 0 1
        /\ Marker.scale tcp = Vector3.mk 0.015 0.015 0.015
        /\ Marker.position tcp = Point.mk 0 0 0
        /\ Marker.frame_id tcp = "/panda_hand_tcp"%string)
    /\ (Marker.color ball = ColorRGBA.mk 0 1 0 0x1.666666p-2
        /\ Marker.frame_id ball = "/panda_link0"%string)
    /\ (Marker.type traj = Marker.LINE_STRIP
        /\ Marker.type tcp = Marker.SPHERE
        /\ Marker.type ball = Marker.SPHERE).
Proof.
  intros Hreach.
  pose proof (reachable_session_state sin self Hreach) as Hself.
  destruct (reachable_unwritten sin self Hreach) as (Htcp & Href).
  destruct (reachable_from_new sin self Hreach)
    as (u & p & a & i & now & self0 & Hnew & Hsame).
  assert (Htraj : MarkerPublisher.traj_marker_ self = MarkerPublisher.traj_marker_ self0)
    by (unfold constructed in Hsame; congruence).
  destruct (session_state_first_point self Hself) as (p0 & ptl & Hfirst).
  destruct Hself as (Ho & Hb & (r0 & r1 & r2 & Hr) & _ & _ & Htype).
  destruct (marker_callback_run now_tcp now_ref now_text self _ _ _ _ _ _ _ _ _ _ _ _
              Hr Ho Hb Hfirst)
    as (ball & label & Hball & (_ & Hbtype) & _ & _ & _ & _ & Hrun).
  rewrite (generate_ref_ball_from_default now_ref _ r0 r1 r2 _ _ Href) in Hball.
  rewrite (generate_tcp_marker_from_default now_tcp _ Htcp) in Hrun.
  do 2 eexists. exists (generate_tcp_marker now_tcp Marker.default), ball. eexists.
  split; [exact Hrun |]. split.
  - rewrite Htraj. exact (new_traj_marker_look sin u p a i now self0 Hnew).
  - split; [repeat split |].
    split; [exact (generate_ref_ball_look now_ref ball _ _ _ _ _ Hball) |].
    split; [exact Htype | split; [reflexivity | exact Hbtype]].
Qed.

Lemma published_markers_look_witness :
  MarkerPublisher.reachable sin_reduced node_0
  /\ exists self' traj tcp ball rest,
       MarkerPublisher.marker_callback 1 2 3 node_0 = Ok (self', traj :: tcp :: ball :: rest)
       /\ Marker.color ball = ColorRGBA.mk 0 1 0 0x1.666666p-2.
Proof.
  split; [exact node_0_reachable |].
  destruct (published_markers_look sin_reduced node_0 1 2 3 node_0_reachable)
    as (self' & traj & tcp & ball & rest & Hrun & _ & _ & (Hcolor & _) & _).
  exists self', traj, tcp, ball, rest. split; [exact Hrun | exact Hcolor].
Defined.

(** ** Signed zero and NaN as a reference position *)

Lemma position_then_timer (self : MarkerPublisher.t) (x y z : float)
    (now_tcp now_ref now_text : Time) :
  session_state self ->
  exists self1 self2 markers ball p0 ptl,
    MarkerPublisher.ref_callback (PosInfo.mk x y z) self = Ok self1
    /\ MarkerPublisher.marker_callback now_tcp now_ref now_text self1 = Ok (self2, markers)
    /\ nth_error markers 2 = Some ball
    /\ Marker.points (MarkerPublisher.traj_marker_ self) = p0 :: ptl
    /\ Marker.position ball = (if (x =? 0)%float then p0 else Point.mk x y z)
    /\ Marker.scale ball
       = (let my_size := 0.015 + ball_distance x 0.5059 / 20 in
          Vector3.mk my_size my_size my_size)%float.
Proof.
  intros Hself.
  destruct (session_state_first_point self Hself) as (p0 & ptl & Hfirst).
  pose proof Hself as (Ho & Hb & (r0 & r1 & r2 & Hr) & _).
  pose proof (ref_callback_run (PosInfo.mk x y z) self r0 r1 r2 Hr) as Hmsg.
  cbn [PosInfo.ref_position_0 PosInfo.ref_position_1 PosInfo.ref_position_2] in Hmsg.
  set (self1 := MarkerPublisher.set_ref_pos [x; y; z] self) in Hmsg.
  destruct (marker_callback_run now_tcp now_ref now_text self1
              x y z 0.5059 0.3 0.0 0.05 [0.0; 0.4346]%float [] [] p0 ptl
              eq_refl Ho Hb Hfirst)
    as (ball & label & _ & _ & Hscale & Hpos & _ & _ & Hrun).
  exists self1; eexists; eexists; exists ball, p0, ptl.
  split; [exact Hmsg |]. split; [exact Hrun |]. split; [reflexivity |].
  split; [exact Hfirst |]. split; [exact Hpos | exact Hscale].
Qed.

(** X18.  In every state of the session, a reference position whose first
    component is the negative zero counts as not received: the ball stands at
    the first point of the trajectory with the size 0.02.  A first component
    that is NaN is not equal to 0.0: the ball gets the position as it came
    and the size NaN. *)
Theorem reference_negative_zero_and_nan (sin : float -> float) (self : MarkerPublisher.t)
    (y z : float) (now_tcp now_ref now_text : Time) :
  MarkerPublisher.reachable sin self ->
  (exists self1 self2 markers ball,
     MarkerPublisher.ref_callback (PosInfo.mk neg_zero y z) self = Ok self1
     /\ MarkerPublisher.marker_callback now_tcp now_ref now_text self1 = Ok (self2, markers)
     /\ nth_error markers 2 = Some ball
     /\ Some (Marker.position ball)
        = nth_error (Marker.points (MarkerPublisher.traj_marker_ self)) 0
     /\ Marker.scale ball = Vector3.mk 0.02 0.02 0.02)
  /\ (exists self1 self2 markers ball,
        MarkerPublisher.ref_callback (PosInfo.mk nan y z) self = Ok self1
        /\ MarkerPublisher.marker_callback now_tcp now_ref now_text self1 = Ok (self2, markers)
        /\ nth_error markers 2 = Some ball
        /\ Marker.position ball = Point.mk nan y z
        /\ Marker.scale ball = Vector3.mk nan nan nan).
Proof.
  intros Hreach.
  pose proof (reachable_session_state sin self Hreach) as Hself.
  split.
  - destruct (position_then_timer self neg_zero y z now_tcp now_ref now_text Hself)
      as (self1 & self2 & markers & ball & p0 & ptl & Hmsg & Hrun & Hnth & Hfirst & Hpos & Hsc).
    exists self1, self2, markers, ball.
    split; [exact Hmsg |]. split; [exact Hrun |]. split; [exact Hnth |].
    split; [rewrite Hfirst, Hpos; reflexivity | rewrite Hsc; reflexivity].
  - destruct (position_then_timer self nan y z now_tcp now_ref now_text Hself)
      as (self1 & self2 & markers & ball & p0 & ptl & Hmsg & Hrun & Hnth & Hfirst & Hpos & Hsc).
    exists self1, self2, markers, ball.
    split; [exact Hmsg |]. split; [exact Hrun |]. split; [exact Hnth |].
    split; [rewrite Hpos; reflexivity | rewrite Hsc; reflexivity].
Qed.

Lemma reference_negative_zero_and_nan_witness :
  MarkerPublisher.reachable sin_reduced node_0
  /\ exists self1 self2 markers ball,
       MarkerPublisher.ref_callback (PosInfo.mk nan 0.1 0.45) node_0 = Ok self1
       /\ MarkerPublisher.marker_callback 1 2 3 self1 = Ok (self2, markers)
       /\ nth_error markers 2 = Some ball
       /\ Marker.position ball = Point.mk nan 0.1 0.45.
Proof.
  split; [exact node_0_reachable |].
  destruct (reference_negative_zero_and_nan sin_reduced node_0 0.1 0.45 1 2 3
              node_0_reachable)
    as (_ & self1 & self2 & markers & ball & Hmsg & Hrun & Hnth & Hpos & _).
  exists self1, self2, markers, ball. repeat split; assumption.
Defined.
